(** * Maternal Health Tracking System: a shallow embedding of [src/index.ts]

    The canister keeps five [StableBTreeMap]s keyed by strings and serves
    three HTTP routes.  The stores are modelled as [gmap string _], the
    route handlers as functions from a state, the values the environment
    supplies during the request ([uuidv4()], [ic.time()]) and the decoded
    request body to a new state and a response.

    Conventions for JavaScript values:
    - a [number] that holds a reading or an age is a rational [Q]; the
      comparisons of the source are exact on the values a JSON body can
      carry; a [number] that holds a count, a page or a time value is a [Z];
    - a [bigint] is a [Z];
    - a [string] is a [string] whose characters are code units below 256;
    - a field of a [Partial<T>] body, or a field the object spread may
      leave [undefined], is an [option]. *)

From Stdlib Require Import ZArith QArith String Ascii List Bool Lia.
From stdpp Require Import gmap strings list fin_maps.

Local Open Scope string_scope.

(** ** JavaScript primitives used by the source *)

Module Js.

(** [Error] values the source throws or the runtime raises. *)
Inductive exn :=
| RangeError
| Error (message : string).

(** A computation that returns or throws. *)
Inductive result (A : Type) :=
| Return (a : A)
| Throw (e : exn).
Arguments Return {A} a.
Arguments Throw {A} e.

Definition bind {A B} (r : result A) (k : A -> result B) : result B :=
  match r with
  | Return a => k a
  | Throw e => Throw e
  end.

(** [try { body } catch (error) { handler }] *)
Definition try_catch {A} (body : result A) (handler : exn -> result A) : result A :=
  match body with
  | Return a => Return a
  | Throw e => handler e
  end.

(** [x < y] on numbers. *)
Definition Qlt_bool (x y : Q) : bool := negb (Qle_bool y x).

(** Truthiness: [undefined], [""], [0] and [0n] are falsy. *)
Definition truthy_string (s : option string) : bool :=
  match s with
  | Some s => negb (String.eqb s "")
  | None => false
  end.

Definition truthy_number (x : option Q) : bool :=
  match x with
  | Some x => negb (Qeq_bool x 0)
  | None => false
  end.

Definition truthy_bigint (x : option Z) : bool :=
  match x with
  | Some x => negb (x =? 0)%Z
  | None => false
  end.

(** Relational operators with a possibly [undefined] left operand:
    [undefined] converts to [NaN] and every comparison with it is false. *)
Definition ge (x : option Q) (c : Q) : bool :=
  match x with Some x => Qle_bool c x | None => false end.
Definition gt (x : option Q) (c : Q) : bool :=
  match x with Some x => Qlt_bool c x | None => false end.
Definition lt (x : option Q) (c : Q) : bool :=
  match x with Some x => Qlt_bool x c | None => false end.

(** White space removed by [String.prototype.trim], among the code
    units below 256: TAB, LF, VT, FF, CR, SP and NBSP. *)
Definition is_white_space (c : ascii) : bool :=
  let n := nat_of_ascii c in
  ((9 <=? n) && (n <=? 13) || (n =? 32) || (n =? 160))%nat.

Fixpoint trimStart (s : string) : string :=
  match s with
  | EmptyString => EmptyString
  | String c rest => if is_white_space c then trimStart rest else s
  end.

Fixpoint trimEnd (s : string) : string :=
  match s with
  | EmptyString => EmptyString
  | String c rest =>
      match trimEnd rest with
      | EmptyString => if is_white_space c then EmptyString else String c EmptyString
      | t => String c t
      end
  end.

Definition trim (s : string) : string := trimEnd (trimStart s).

(** [Array.prototype.slice(start, end)] on integral arguments. *)
Definition slice {A} (l : list A) (start end_ : Z) : list A :=
  let len := Z.of_nat (length l) in
  let k := if (start <? 0)%Z then Z.max (len + start) 0 else Z.min start len in
  let final := if (end_ <? 0)%Z then Z.max (len + end_) 0 else Z.min end_ len in
  firstn (Z.to_nat (final - k)) (skipn (Z.to_nat k) l).

(** The largest time value of a [Date], in milliseconds. *)
Definition MAX_TIME_VALUE : Z := 8640000000000000.

(** [new Date(Number(ms)).toISOString()] for a bigint [ms]: the time
    value is kept when it is within the range of [Date], else
    [toISOString] raises a [RangeError].  The rendering of a valid time
    value as text is kept symbolic ([ISO ms]). *)
Inductive rendered :=
| ISO (ms : Z)
| Text (s : string)
| Null.

Definition toISOString (ms : Z) : result rendered :=
  if (Z.abs ms <=? MAX_TIME_VALUE)%Z then Return (ISO ms) else Throw RangeError.

End Js.

(** ** Enums *)

Inductive RiskLevel := LOW | MEDIUM | HIGH.

Inductive Trimester := FIRST | SECOND | THIRD.

(** ** Input sanitisation *)

(** [input.replace(/[<>]/g, '')] *)
Fixpoint sanitizeString (input : string) : string :=
  match input with
  | EmptyString => EmptyString
  | String c rest =>
      if (Ascii.eqb c "<" || Ascii.eqb c ">")%bool
      then sanitizeString rest
      else String c (sanitizeString rest)
  end.

(** ** Entities

    Each interface of the source is a record in a module of its name.  A
    field that only the request body can supply, and that the handlers do
    not require, is an [option]: the object spread leaves it [undefined]
    when the body has no such key. *)

Module HealthcareProvider.
Record t := mk {
  id : string;
  name : string;
  specialization : string;
  licenseNumber : string;
  contactInfo : string;
  facilityId : string;
  isActive : bool;
  lastUpdated : Z
}.
End HealthcareProvider.

Module MaternalProfile.
Record t := mk {
  id : string;
  name : option string;
  age : option Q;
  bloodType : option string;
  emergencyContact : option string;
  dueDate : Z;
  currentTrimester : Trimester;
  riskLevel : RiskLevel;
  primaryCareProviderId : string;
  createdAt : Z;
  lastUpdated : Z;
  medicalHistory : list string;
  allergies : list string;
  isHighRiskPregnancy : bool
}.
End MaternalProfile.

(** [Partial<MaternalProfile>], the decoded body of [POST /maternal-profiles].
    [primaryCareProviderId] is the key the handler looks up and is a string.
    [dueDate] holds the time value of [new Date(req.body.dueDate)], in
    milliseconds, [None] when that date is invalid ([getTime()] is [NaN]). *)
Module PartialMaternalProfile.
Record t := mk {
  id : option string;
  name : option string;
  age : option Q;
  bloodType : option string;
  emergencyContact : option string;
  dueDate : option Z;
  currentTrimester : option Trimester;
  riskLevel : option RiskLevel;
  primaryCareProviderId : string;
  createdAt : option Z;
  lastUpdated : option Z;
  medicalHistory : option (list string);
  allergies : option (list string);
  isHighRiskPregnancy : option bool
}.
End PartialMaternalProfile.

Module HealthMetrics.
Record t := mk {
  id : string;
  maternalProfileId : string;
  recordedAt : Z;
  weight : option Q;
  bloodPressureSystolic : option Q;
  bloodPressureDiastolic : option Q;
  bloodSugar : option Q;
  hemoglobinLevels : option Q;
  fetalHeartRate : option Q;
  notes : option string;
  recordedById : option string;
  isFlaggedForReview : bool
}.
End HealthMetrics.

(** [Partial<HealthMetrics>], the decoded body of [POST /health-metrics].
    [maternalProfileId] is the key the handler looks up and is a string. *)
Module PartialHealthMetrics.
Record t := mk {
  id : option string;
  maternalProfileId : string;
  recordedAt : option Z;
  weight : option Q;
  bloodPressureSystolic : option Q;
  bloodPressureDiastolic : option Q;
  bloodSugar : option Q;
  hemoglobinLevels : option Q;
  fetalHeartRate : option Q;
  notes : option string;
  recordedById : option string;
  isFlaggedForReview : option bool
}.
End PartialHealthMetrics.

Module PrenatalVisit.
Record t := mk {
  id : string;
  maternalProfileId : string;
  providerId : string;
  scheduledDate : Z;
  completed : bool;
  visitType : string;
  findings : string;
  recommendations : string;
  nextVisitDate : option Z;
  prescriptions : list string;
  followUpRequired : bool;
  cancellationReason : option string
}.
End PrenatalVisit.

Module HealthAlert.
Record t := mk {
  id : string;
  maternalProfileId : string;
  createdAt : Z;
  severity : RiskLevel;
  description : string;
  recommendedAction : string;
  resolved : bool;
  resolvedAt : option Z;
  providerId : option string;
  resolutionNotes : option string;
  escalationLevel : Z
}.
End HealthAlert.

(** ** Storage *)

Record State := mkState {
  maternalProfileStorage : gmap string MaternalProfile.t;
  providerStorage : gmap string HealthcareProvider.t;
  metricsStorage : gmap string HealthMetrics.t;
  visitStorage : gmap string PrenatalVisit.t;
  alertStorage : gmap string HealthAlert.t
}.

(** What the environment supplies while one request is handled:
    [ic.time()], constant during a call, and the successive results of
    [uuidv4()]. *)
Record Env := mkEnv {
  ic_time : Z;
  uuidv4 : nat -> string
}.

(** ** Validation *)

Definition validateProfile (profile : PartialMaternalProfile.t) : option string :=
  let name := PartialMaternalProfile.name profile in
  let age := PartialMaternalProfile.age profile in
  let bloodType := PartialMaternalProfile.bloodType profile in
  if (negb (Js.truthy_string name)
      || match name with
         | Some n => (String.length (Js.trim n) <? 2)%nat || (100 <? String.length n)%nat
         | None => false
         end)%bool
  then Some "Name must be between 2 and 100 characters"
  else if match PartialMaternalProfile.medicalHistory profile with
          | Some entries => existsb (fun history => (1000 <? String.length history)%nat) entries
          | None => false
          end
  then Some "Medical history entries cannot exceed 1000 characters"
  else if (negb (Js.truthy_number age) || Js.lt age 16 || Js.gt age 60)%bool
  then Some "Age must be between 16 and 60"
  else if (negb (Js.truthy_string bloodType)
           || match bloodType with
              | Some b => negb (existsb (String.eqb b) ["A+"; "A-"; "B+"; "B-"; "AB+"; "AB-"; "O+"; "O-"])
              | None => false
              end)%bool
  then Some "Invalid blood type"
  else None.

Definition validateHealthMetrics (metrics : PartialHealthMetrics.t) : option string :=
  let systolic := PartialHealthMetrics.bloodPressureSystolic metrics in
  let diastolic := PartialHealthMetrics.bloodPressureDiastolic metrics in
  let sugar := PartialHealthMetrics.bloodSugar metrics in
  if (Js.truthy_number systolic && (Js.lt systolic 70 || Js.gt systolic 190))%bool
  then Some "Invalid systolic blood pressure range"
  else if (Js.truthy_number diastolic && (Js.lt diastolic 40 || Js.gt diastolic 120))%bool
  then Some "Invalid diastolic blood pressure range"
  else if (Js.truthy_number sugar && (Js.lt sugar 30 || Js.gt sugar 500))%bool
  then Some "Invalid blood sugar range"
  else None.

Definition NANOS_PER_MILLISECOND : Z := 1000000.

(** ** Risk assessment and alert creation *)

Definition assessRisk (metrics : HealthMetrics.t) : bool :=
  (Js.ge (HealthMetrics.bloodPressureSystolic metrics) 140
   || Js.ge (HealthMetrics.bloodPressureDiastolic metrics) 90
   || Js.gt (HealthMetrics.bloodSugar metrics) 140
   || Js.lt (HealthMetrics.hemoglobinLevels metrics) 9)%bool.

(** [createHighRiskAlert(metrics)]; [uuid] and [now] are the values its calls
    of [uuidv4()] and [ic.time()] return. *)
Definition createHighRiskAlert (uuid : string) (now : Z)
    (metrics : HealthMetrics.t) (s : State) : State :=
  let alert :=
    {| HealthAlert.id := uuid;
       HealthAlert.maternalProfileId := HealthMetrics.maternalProfileId metrics;
       HealthAlert.createdAt := now;
       HealthAlert.severity := HIGH;
       HealthAlert.description := "Abnormal health metrics detected";
       HealthAlert.recommendedAction := "Immediate medical review required";
       HealthAlert.resolved := false;
       HealthAlert.resolvedAt := None;
       HealthAlert.providerId := HealthMetrics.recordedById metrics;
       HealthAlert.resolutionNotes := None;
       HealthAlert.escalationLevel := 1 |} in
  {| maternalProfileStorage := maternalProfileStorage s;
     providerStorage := providerStorage s;
     metricsStorage := metricsStorage s;
     visitStorage := visitStorage s;
     alertStorage := <[HealthAlert.id alert := alert]> (alertStorage s) |}.

(** ** Serialization *)

(** [new Date(Number(t / NANOS_PER_MILLISECOND)).toISOString()]; the bigint
    division truncates towards zero. *)
Definition render_instant (t : Z) : Js.result Js.rendered :=
  Js.toISOString (Z.quot t NANOS_PER_MILLISECOND).

(** [t ? new Date(...).toISOString() : null] *)
Definition render_optional_instant (t : option Z) : Js.result Js.rendered :=
  match t with
  | Some v => if Js.truthy_bigint t then render_instant v else Js.Return Js.Null
  | None => Js.Return Js.Null
  end.

Module SerializedProfile.
Record t := mk {
  spread : MaternalProfile.t;
  dueDate : Js.rendered;
  createdAt : Js.rendered;
  lastUpdated : Js.rendered
}.
End SerializedProfile.

Module SerializedMetrics.
Record t := mk {
  spread : HealthMetrics.t;
  recordedAt : Js.rendered
}.
End SerializedMetrics.

Module SerializedVisit.
Record t := mk {
  spread : PrenatalVisit.t;
  scheduledDate : Js.rendered;
  nextVisitDate : Js.rendered
}.
End SerializedVisit.

Module SerializedAlert.
Record t := mk {
  spread : HealthAlert.t;
  createdAt : Js.rendered;
  resolvedAt : Js.rendered
}.
End SerializedAlert.

Notation "x <- e ;; k" := (Js.bind e (fun x => k))
  (at level 100, e at next level, right associativity, only parsing).

Definition serializeProfile (profile : MaternalProfile.t) : Js.result SerializedProfile.t :=
  Js.try_catch
    (dueDate <- render_instant (MaternalProfile.dueDate profile) ;;
     createdAt <- render_instant (MaternalProfile.createdAt profile) ;;
     lastUpdated <- render_instant (MaternalProfile.lastUpdated profile) ;;
     Js.Return (SerializedProfile.mk profile dueDate createdAt lastUpdated))
    (fun error =>
       Js.Return (SerializedProfile.mk profile
                    (Js.Text "Invalid Date") (Js.Text "Invalid Date") (Js.Text "Invalid Date"))).

Definition serializeMetrics (metrics : HealthMetrics.t) : Js.result SerializedMetrics.t :=
  Js.try_catch
    (recordedAt <- render_instant (HealthMetrics.recordedAt metrics) ;;
     Js.Return (SerializedMetrics.mk metrics recordedAt))
    (fun error => Js.Throw (Js.Error "Failed to serialize metrics data")).

Definition serializeVisit (visit : PrenatalVisit.t) : Js.result SerializedVisit.t :=
  Js.try_catch
    (scheduledDate <- render_instant (PrenatalVisit.scheduledDate visit) ;;
     nextVisitDate <- render_optional_instant (PrenatalVisit.nextVisitDate visit) ;;
     Js.Return (SerializedVisit.mk visit scheduledDate nextVisitDate))
    (fun error => Js.Throw (Js.Error "Failed to serialize visit data")).

Definition serializeAlert (alert : HealthAlert.t) : Js.result SerializedAlert.t :=
  Js.try_catch
    (createdAt <- render_instant (HealthAlert.createdAt alert) ;;
     resolvedAt <- render_optional_instant (HealthAlert.resolvedAt alert) ;;
     Js.Return (SerializedAlert.mk alert createdAt resolvedAt))
    (fun error => Js.Throw (Js.Error "Failed to serialize alert data")).

(** ** Route handlers

    A request reaches its handler after [express.json()] has decoded the
    body and the rate limiter has let it through; a request the limiter
    turns away reaches no handler and touches no store. *)

Inductive Json :=
| ErrorJson (error : string)
| ProfileJson (profile : SerializedProfile.t)
| MetricsJson (metrics : SerializedMetrics.t)
| PageJson (data : list SerializedProfile.t) (page limit total : Z).

(** [res.status(code).json(body)]; [res.json(body)] answers with status 200. *)
Record Response := mkResponse {
  status : Z;
  json : Json
}.

(** [if (req.body.f) { req.body.f = sanitizeString(req.body.f); }] *)
Definition sanitize_field (f : option string) : option string :=
  if Js.truthy_string f then option_map sanitizeString f else f.

Definition sanitize_body (body : PartialMaternalProfile.t) : PartialMaternalProfile.t :=
  {| PartialMaternalProfile.id := PartialMaternalProfile.id body;
     PartialMaternalProfile.name := sanitize_field (PartialMaternalProfile.name body);
     PartialMaternalProfile.age := PartialMaternalProfile.age body;
     PartialMaternalProfile.bloodType := PartialMaternalProfile.bloodType body;
     PartialMaternalProfile.emergencyContact :=
       sanitize_field (PartialMaternalProfile.emergencyContact body);
     PartialMaternalProfile.dueDate := PartialMaternalProfile.dueDate body;
     PartialMaternalProfile.currentTrimester := PartialMaternalProfile.currentTrimester body;
     PartialMaternalProfile.riskLevel := PartialMaternalProfile.riskLevel body;
     PartialMaternalProfile.primaryCareProviderId :=
       PartialMaternalProfile.primaryCareProviderId body;
     PartialMaternalProfile.createdAt := PartialMaternalProfile.createdAt body;
     PartialMaternalProfile.lastUpdated := PartialMaternalProfile.lastUpdated body;
     PartialMaternalProfile.medicalHistory := PartialMaternalProfile.medicalHistory body;
     PartialMaternalProfile.allergies := PartialMaternalProfile.allergies body;
     PartialMaternalProfile.isHighRiskPregnancy :=
       PartialMaternalProfile.isHighRiskPregnancy body |}.

(** [BigInt(date.getTime())] raises a [RangeError] on [NaN]. *)
Definition BigInt_of_time_value (t : option Z) : Js.result Z :=
  match t with
  | Some ms => Js.Return ms
  | None => Js.Throw Js.RangeError
  end.

(** The object literal of [POST /maternal-profiles]: defaults, then the spread
    of the body, then [dueDate]. *)
Definition new_profile (env : Env) (body : PartialMaternalProfile.t) (dueDate : Z)
    : MaternalProfile.t :=
  {| MaternalProfile.id := default (uuidv4 env 0) (PartialMaternalProfile.id body);
     MaternalProfile.createdAt := default (ic_time env) (PartialMaternalProfile.createdAt body);
     MaternalProfile.lastUpdated :=
       default (ic_time env) (PartialMaternalProfile.lastUpdated body);
     MaternalProfile.currentTrimester :=
       default FIRST (PartialMaternalProfile.currentTrimester body);
     MaternalProfile.riskLevel := default LOW (PartialMaternalProfile.riskLevel body);
     MaternalProfile.medicalHistory := default [] (PartialMaternalProfile.medicalHistory body);
     MaternalProfile.allergies := default [] (PartialMaternalProfile.allergies body);
     MaternalProfile.isHighRiskPregnancy :=
       default false (PartialMaternalProfile.isHighRiskPregnancy body);
     MaternalProfile.name := PartialMaternalProfile.name body;
     MaternalProfile.age := PartialMaternalProfile.age body;
     MaternalProfile.bloodType := PartialMaternalProfile.bloodType body;
     MaternalProfile.emergencyContact := PartialMaternalProfile.emergencyContact body;
     MaternalProfile.primaryCareProviderId := PartialMaternalProfile.primaryCareProviderId body;
     MaternalProfile.dueDate := (dueDate * NANOS_PER_MILLISECOND)%Z |}.

Definition insert_profile (profile : MaternalProfile.t) (s : State) : State :=
  {| maternalProfileStorage := <[MaternalProfile.id profile := profile]> (maternalProfileStorage s);
     providerStorage := providerStorage s;
     metricsStorage := metricsStorage s;
     visitStorage := visitStorage s;
     alertStorage := alertStorage s |}.

Definition insert_metrics (metrics : HealthMetrics.t) (s : State) : State :=
  {| maternalProfileStorage := maternalProfileStorage s;
     providerStorage := providerStorage s;
     metricsStorage := <[HealthMetrics.id metrics := metrics]> (metricsStorage s);
     visitStorage := visitStorage s;
     alertStorage := alertStorage s |}.

Definition post_maternal_profiles (env : Env) (req_body : PartialMaternalProfile.t)
    (s : State) : State * Response :=
  let body := sanitize_body req_body in
  match validateProfile body with
  | Some validationError => (s, mkResponse 400 (ErrorJson validationError))
  | None =>
      match providerStorage s !! PartialMaternalProfile.primaryCareProviderId body with
      | None => (s, mkResponse 404 (ErrorJson "Healthcare provider not found"))
      | Some provider =>
          if negb (HealthcareProvider.isActive provider)
          then (s, mkResponse 400 (ErrorJson "Selected healthcare provider is not active"))
          else
            match BigInt_of_time_value (PartialMaternalProfile.dueDate body) with
            | Js.Throw error => (s, mkResponse 500 (ErrorJson "Internal server error"))
            | Js.Return dueDate =>
                let profile := new_profile env body dueDate in
                let s' := insert_profile profile s in
                match serializeProfile profile with
                | Js.Return serialized => (s', mkResponse 200 (ProfileJson serialized))
                | Js.Throw error => (s', mkResponse 500 (ErrorJson "Internal server error"))
                end
            end
      end
  end.

(** The object literal of [POST /health-metrics]: defaults, then the spread of
    the body. *)
Definition new_metrics (env : Env) (body : PartialHealthMetrics.t) : HealthMetrics.t :=
  {| HealthMetrics.id := default (uuidv4 env 0) (PartialHealthMetrics.id body);
     HealthMetrics.recordedAt := default (ic_time env) (PartialHealthMetrics.recordedAt body);
     HealthMetrics.isFlaggedForReview :=
       default false (PartialHealthMetrics.isFlaggedForReview body);
     HealthMetrics.maternalProfileId := PartialHealthMetrics.maternalProfileId body;
     HealthMetrics.weight := PartialHealthMetrics.weight body;
     HealthMetrics.bloodPressureSystolic := PartialHealthMetrics.bloodPressureSystolic body;
     HealthMetrics.bloodPressureDiastolic := PartialHealthMetrics.bloodPressureDiastolic body;
     HealthMetrics.bloodSugar := PartialHealthMetrics.bloodSugar body;
     HealthMetrics.hemoglobinLevels := PartialHealthMetrics.hemoglobinLevels body;
     HealthMetrics.fetalHeartRate := PartialHealthMetrics.fetalHeartRate body;
     HealthMetrics.notes := PartialHealthMetrics.notes body;
     HealthMetrics.recordedById := PartialHealthMetrics.recordedById body |}.

(** [metrics.isFlaggedForReview = true] *)
Definition flag_for_review (metrics : HealthMetrics.t) : HealthMetrics.t :=
  {| HealthMetrics.id := HealthMetrics.id metrics;
     HealthMetrics.recordedAt := HealthMetrics.recordedAt metrics;
     HealthMetrics.isFlaggedForReview := true;
     HealthMetrics.maternalProfileId := HealthMetrics.maternalProfileId metrics;
     HealthMetrics.weight := HealthMetrics.weight metrics;
     HealthMetrics.bloodPressureSystolic := HealthMetrics.bloodPressureSystolic metrics;
     HealthMetrics.bloodPressureDiastolic := HealthMetrics.bloodPressureDiastolic metrics;
     HealthMetrics.bloodSugar := HealthMetrics.bloodSugar metrics;
     HealthMetrics.hemoglobinLevels := HealthMetrics.hemoglobinLevels metrics;
     HealthMetrics.fetalHeartRate := HealthMetrics.fetalHeartRate metrics;
     HealthMetrics.notes := HealthMetrics.notes metrics;
     HealthMetrics.recordedById := HealthMetrics.recordedById metrics |}.

Definition post_health_metrics (env : Env) (body : PartialHealthMetrics.t)
    (s : State) : State * Response :=
  match maternalProfileStorage s !! PartialHealthMetrics.maternalProfileId body with
  | None => (s, mkResponse 404 (ErrorJson "Maternal profile not found"))
  | Some _ =>
      match validateHealthMetrics body with
      | Some validationError => (s, mkResponse 400 (ErrorJson validationError))
      | None =>
          let metrics := new_metrics env body in
          let isHighRisk := assessRisk metrics in
          let metrics := if isHighRisk then flag_for_review metrics else metrics in
          let s1 :=
            if isHighRisk
            then createHighRiskAlert (uuidv4 env 1) (ic_time env) metrics s
            else s in
          let s2 := insert_metrics metrics s1 in
          match serializeMetrics metrics with
          | Js.Return serialized => (s2, mkResponse 200 (MetricsJson serialized))
          | Js.Throw error => (s2, mkResponse 500 (ErrorJson "Failed to record health metrics"))
          end
      end
  end.

(** [parseInt(q) || d]: [None] is [NaN]. *)
Definition parseInt_or (q : option Z) (d : Z) : Z :=
  match q with
  | Some v => if (v =? 0)%Z then d else v
  | None => d
  end.

Fixpoint map_result {A B} (f : A -> Js.result B) (l : list A) : Js.result (list B) :=
  match l with
  | [] => Js.Return []
  | x :: rest =>
      y <- f x ;;
      ys <- map_result f rest ;;
      Js.Return (y :: ys)
  end.

(** [GET /maternal-profiles].  The values are taken in the iteration order of
    the map; nothing below depends on that order. *)
Definition get_maternal_profiles (page_query limit_query : option Z)
    (s : State) : State * Response :=
  let page := parseInt_or page_query 1 in
  let limit := parseInt_or limit_query 10 in
  let skip := ((page - 1) * limit)%Z in
  let values := (map_to_list (maternalProfileStorage s)).*2 in
  match map_result serializeProfile (Js.slice values skip (skip + limit)) with
  | Js.Return profiles =>
      (s, mkResponse 200
            (PageJson profiles page limit (Z.of_nat (size (maternalProfileStorage s)))))
  | Js.Throw error => (s, mkResponse 500 (ErrorJson "Failed to fetch profiles"))
  end.

(** ** The canister as a transition system *)

Inductive Request :=
| PostMaternalProfiles (body : PartialMaternalProfile.t)
| PostHealthMetrics (body : PartialHealthMetrics.t)
| GetMaternalProfiles (page limit : option Z).

Definition handle (env : Env) (req : Request) (s : State) : State * Response :=
  match req with
  | PostMaternalProfiles body => post_maternal_profiles env body s
  | PostHealthMetrics body => post_health_metrics env body s
  | GetMaternalProfiles page limit => get_maternal_profiles page limit s
  end.

(** States the canister reaches from [s0] by handling requests. *)
Inductive reachable (s0 : State) : State -> Prop :=
| reachable_start : reachable s0 s0
| reachable_handle s env req :
    reachable s0 s -> reachable s0 (fst (handle env req s)).

(** * Vocabulary of the statements *)

(** The four triggers of [assessRisk], as propositions on the readings. *)
Definition systolic_trigger (m : HealthMetrics.t) : Prop :=
  exists v, HealthMetrics.bloodPressureSystolic m = Some v /\ (140 <= v)%Q.
Definition diastolic_trigger (m : HealthMetrics.t) : Prop :=
  exists v, HealthMetrics.bloodPressureDiastolic m = Some v /\ (90 <= v)%Q.
Definition sugar_trigger (m : HealthMetrics.t) : Prop :=
  exists v, HealthMetrics.bloodSugar m = Some v /\ (140 < v)%Q.
Definition hemoglobin_trigger (m : HealthMetrics.t) : Prop :=
  exists v, HealthMetrics.hemoglobinLevels m = Some v /\ (v < 9)%Q.

(** Every validated reading of the snapshot is present and within the range
    [validateHealthMetrics] accepts. *)
Definition within_validation_ranges (m : HealthMetrics.t) : Prop :=
  (exists v, HealthMetrics.bloodPressureSystolic m = Some v /\ (70 <= v <= 190)%Q)
  /\ (exists v, HealthMetrics.bloodPressureDiastolic m = Some v /\ (40 <= v <= 120)%Q)
  /\ (exists v, HealthMetrics.bloodSugar m = Some v /\ (30 <= v <= 500)%Q).

(** Every reading is within the validation range and on the safe side of
    its threshold in [assessRisk]. *)
Definition within_safe_ranges (m : HealthMetrics.t) : Prop :=
  (exists v, HealthMetrics.bloodPressureSystolic m = Some v /\ (70 <= v)%Q /\ (v < 140)%Q)
  /\ (exists v, HealthMetrics.bloodPressureDiastolic m = Some v /\ (40 <= v)%Q /\ (v < 90)%Q)
  /\ (exists v, HealthMetrics.bloodSugar m = Some v /\ (30 <= v <= 140)%Q)
  /\ (exists v, HealthMetrics.hemoglobinLevels m = Some v /\ (9 <= v)%Q).

Definition NAME_ERROR : string := "Name must be between 2 and 100 characters".

(** ** Sample data *)

Definition sample_metrics (systolic diastolic sugar hemoglobin : Q) : HealthMetrics.t :=
  {| HealthMetrics.id := "m-1";
     HealthMetrics.maternalProfileId := "p-1";
     HealthMetrics.recordedAt := 1700000000000000000;
     HealthMetrics.weight := Some 64%Q;
     HealthMetrics.bloodPressureSystolic := Some systolic;
     HealthMetrics.bloodPressureDiastolic := Some diastolic;
     HealthMetrics.bloodSugar := Some sugar;
     HealthMetrics.hemoglobinLevels := Some hemoglobin;
     HealthMetrics.fetalHeartRate := None;
     HealthMetrics.notes := None;
     HealthMetrics.recordedById := Some "dr-1";
     HealthMetrics.isFlaggedForReview := false |}.

Definition sample_profile_body (name : option string) (provider : string)
    : PartialMaternalProfile.t :=
  {| PartialMaternalProfile.id := None;
     PartialMaternalProfile.name := name;
     PartialMaternalProfile.age := Some 29%Q;
     PartialMaternalProfile.bloodType := Some "O+";
     PartialMaternalProfile.emergencyContact := Some "555-0100";
     PartialMaternalProfile.dueDate := Some 1800000000000%Z;
     PartialMaternalProfile.currentTrimester := None;
     PartialMaternalProfile.riskLevel := None;
     PartialMaternalProfile.primaryCareProviderId := provider;
     PartialMaternalProfile.createdAt := None;
     PartialMaternalProfile.lastUpdated := None;
     PartialMaternalProfile.medicalHistory := None;
     PartialMaternalProfile.allergies := None;
     PartialMaternalProfile.isHighRiskPregnancy := None |}.

(** A name of two letters followed by [n] spaces. *)
Fixpoint padded_name (n : nat) : string :=
  match n with
  | O => ""
  | S k => String " " (padded_name k)
  end.

Definition long_padded_name : string := "Al" ++ padded_name 99.

(** C8 as the specification words it: the name error is reported exactly
    when the trimmed length of the name is outside [2,100]. *)
Definition name_rule_on_trimmed_length : Prop :=
  forall (p : PartialMaternalProfile.t) (n : string),
    PartialMaternalProfile.name p = Some n ->
    (validateProfile p = Some NAME_ERROR <->
       (String.length (Js.trim n) < 2)%nat \/ (100 < String.length (Js.trim n))%nat).

(** The values [createHighRiskAlert] gives to a new alert. *)
Definition as_created (a : HealthAlert.t) : Prop :=
  HealthAlert.severity a = HIGH
  /\ HealthAlert.escalationLevel a = 1%Z
  /\ HealthAlert.resolved a = false
  /\ HealthAlert.resolvedAt a = None.

(** The unresolved alerts of a profile. *)
Definition open_alerts_of (profileId : string) (s : State) : list HealthAlert.t :=
  filter (fun a => HealthAlert.maternalProfileId a = profileId
                   /\ HealthAlert.resolved a = false)
         ((map_to_list (alertStorage s)).*2).

Definition sample_provider (id : string) (active : bool) : HealthcareProvider.t :=
  {| HealthcareProvider.id := id;
     HealthcareProvider.name := "Dr. Achieng";
     HealthcareProvider.specialization := "Obstetrics";
     HealthcareProvider.licenseNumber := "KE-0042";
     HealthcareProvider.contactInfo := "555-0199";
     HealthcareProvider.facilityId := "f-1";
     HealthcareProvider.isActive := active;
     HealthcareProvider.lastUpdated := 1700000000000000000 |}.

Definition sample_profile : MaternalProfile.t :=
  {| MaternalProfile.id := "p-1";
     MaternalProfile.name := Some "Amina";
     MaternalProfile.age := Some 29%Q;
     MaternalProfile.bloodType := Some "O+";
     MaternalProfile.emergencyContact := Some "555-0100";
     MaternalProfile.dueDate := 1800000000000000000;
     MaternalProfile.currentTrimester := FIRST;
     MaternalProfile.riskLevel := LOW;
     MaternalProfile.primaryCareProviderId := "dr-1";
     MaternalProfile.createdAt := 1700000000000000000;
     MaternalProfile.lastUpdated := 1700000000000000000;
     MaternalProfile.medicalHistory := [];
     MaternalProfile.allergies := [];
     MaternalProfile.isHighRiskPregnancy := false |}.

(** One profile, an active provider ["dr-1"], an inactive one ["dr-2"], and
    nothing else. *)
Definition sample_state : State :=
  {| maternalProfileStorage := {[ "p-1" := sample_profile ]};
     providerStorage :=
       <["dr-1" := sample_provider "dr-1" true]> {[ "dr-2" := sample_provider "dr-2" false ]};
     metricsStorage := ∅;
     visitStorage := ∅;
     alertStorage := ∅ |}.

Definition sample_metrics_body (systolic diastolic sugar hemoglobin : Q)
    (flag : option bool) : PartialHealthMetrics.t :=
  {| PartialHealthMetrics.id := None;
     PartialHealthMetrics.maternalProfileId := "p-1";
     PartialHealthMetrics.recordedAt := None;
     PartialHealthMetrics.weight := Some 64%Q;
     PartialHealthMetrics.bloodPressureSystolic := Some systolic;
     PartialHealthMetrics.bloodPressureDiastolic := Some diastolic;
     PartialHealthMetrics.bloodSugar := Some sugar;
     PartialHealthMetrics.hemoglobinLevels := Some hemoglobin;
     PartialHealthMetrics.fetalHeartRate := None;
     PartialHealthMetrics.notes := None;
     PartialHealthMetrics.recordedById := Some "dr-1";
     PartialHealthMetrics.isFlaggedForReview := flag |}.

(** Two requests' worth of environment: distinct identifiers, increasing time. *)
Definition first_env : Env :=
  {| ic_time := 1700000001000000000;
     uuidv4 := fun k => match k with O => "m-1" | _ => "a-1" end |}.

Definition second_env : Env :=
  {| ic_time := 1700000002000000000;
     uuidv4 := fun k => match k with O => "m-2" | _ => "a-2" end |}.

(** The environment of a create-profile request. *)
Definition profile_env : Env :=
  {| ic_time := 1700000000500000000;
     uuidv4 := fun _ => "p-2" |}.

(** The state after two consecutive HIGH-triggering recordings for ["p-1"]. *)
Definition after_two_high_recordings : State :=
  fst (post_health_metrics second_env (sample_metrics_body 150 95 100 12 None)
         (fst (post_health_metrics first_env (sample_metrics_body 150 95 100 12 None)
                 sample_state))).

(** The snapshot a request stores once it has passed the lookup and the
    validation: the new object, flagged when [assessRisk] answers HIGH. *)
Definition recorded_metrics (env : Env) (body : PartialHealthMetrics.t) : HealthMetrics.t :=
  if assessRisk (new_metrics env body)
  then flag_for_review (new_metrics env body)
  else new_metrics env body.

(** C1 as the specification words it, at the state after two consecutive
    HIGH-triggering recordings: one open alert, escalated to level 2. *)
Definition one_open_alert_escalated : Prop :=
  exists a, open_alerts_of "p-1" after_two_high_recordings = [a]
            /\ HealthAlert.escalationLevel a = 2%Z.

(** The state after one recording with readings below every trigger whose
    body carries [isFlaggedForReview: true]. *)
Definition after_flagged_low_recording : State :=
  fst (post_health_metrics first_env (sample_metrics_body 118 76 95 12 (Some true))
         sample_state).

Definition NOT_ACTIVE_ERROR : string := "Selected healthcare provider is not active".

(** C6 as the specification words it: a request that names an inactive
    provider is answered with the provider error and stores nothing. *)
Definition inactive_provider_always_reported : Prop :=
  forall (env : Env) (body : PartialMaternalProfile.t) (s : State)
         (provider : HealthcareProvider.t),
    providerStorage s !! PartialMaternalProfile.primaryCareProviderId body = Some provider ->
    HealthcareProvider.isActive provider = false ->
    json (snd (post_maternal_profiles env body s)) = ErrorJson NOT_ACTIVE_ERROR
    /\ maternalProfileStorage (fst (post_maternal_profiles env body s))
       = maternalProfileStorage s.

(** An instant (nanoseconds) whose millisecond value is outside the range of
    [Date], so that [toISOString] raises. *)
Definition malformed_instant (t : Z) : Prop :=
  (Js.MAX_TIME_VALUE < Z.abs (Z.quot t NANOS_PER_MILLISECOND))%Z.

Definition INVALID_DATE : Js.rendered := Js.Text "Invalid Date".

(** C7 as the specification words it, for metrics: serializing a snapshot
    with a malformed instant returns a value. *)
Definition metrics_serialization_degrades : Prop :=
  forall m : HealthMetrics.t,
    malformed_instant (HealthMetrics.recordedAt m) ->
    exists j, serializeMetrics m = Js.Return j.

Definition unrepresentable_metrics : HealthMetrics.t :=
  {| HealthMetrics.id := "m-9";
     HealthMetrics.maternalProfileId := "p-1";
     HealthMetrics.recordedAt := 10 ^ 25;
     HealthMetrics.weight := None;
     HealthMetrics.bloodPressureSystolic := Some 118%Q;
     HealthMetrics.bloodPressureDiastolic := Some 76%Q;
     HealthMetrics.bloodSugar := Some 95%Q;
     HealthMetrics.hemoglobinLevels := Some 12%Q;
     HealthMetrics.fetalHeartRate := None;
     HealthMetrics.notes := None;
     HealthMetrics.recordedById := None;
     HealthMetrics.isFlaggedForReview := false |}.

(** The state after one HIGH-triggering recording: alert ["a-1"] is open. *)
Definition state_with_open_alert : State :=
  fst (post_health_metrics first_env (sample_metrics_body 150 95 100 12 None) sample_state).

(** C4 as the specification words it, at that state: some request of the
    program resolves the open alert. *)
Definition resolution_offered : Prop :=
  exists (env : Env) (req : Request) (a : HealthAlert.t),
    alertStorage (fst (handle env req state_with_open_alert)) !! "a-1" = Some a
    /\ HealthAlert.resolved a = true.

(** A stored profile whose [createdAt] is beyond the range of [Date]. *)
Definition profile_created_long_ago : MaternalProfile.t :=
  {| MaternalProfile.id := "p-9";
     MaternalProfile.name := Some "Amina";
     MaternalProfile.age := Some 29%Q;
     MaternalProfile.bloodType := Some "O+";
     MaternalProfile.emergencyContact := None;
     MaternalProfile.dueDate := 1800000000000000000;
     MaternalProfile.currentTrimester := FIRST;
     MaternalProfile.riskLevel := LOW;
     MaternalProfile.primaryCareProviderId := "dr-1";
     MaternalProfile.createdAt := - 10 ^ 25;
     MaternalProfile.lastUpdated := 1700000000000000000;
     MaternalProfile.medicalHistory := [];
     MaternalProfile.allergies := [];
     MaternalProfile.isHighRiskPregnancy := false |}.

(** * Vocabulary of the further properties *)

(** A reading that [validateHealthMetrics] lets through a range check:
    absent, zero (falsy, so not checked), or within the bounds. *)
Definition reading_accepted (x : option Q) (lo hi : Q) : Prop :=
  match x with
  | None => True
  | Some v => (v == 0)%Q \/ ((lo <= v)%Q /\ (v <= hi)%Q)
  end.

Definition HISTORY_ERROR : string := "Medical history entries cannot exceed 1000 characters".
Definition AGE_ERROR : string := "Age must be between 16 and 60".
Definition BLOOD_TYPE_ERROR : string := "Invalid blood type".

Definition BLOOD_TYPES : list string := ["A+"; "A-"; "B+"; "B-"; "AB+"; "AB-"; "O+"; "O-"].

(** The four rules of [validateProfile], as propositions on the candidate. *)
Definition name_rule (p : PartialMaternalProfile.t) : Prop :=
  exists n, PartialMaternalProfile.name p = Some n
            /\ (2 <= String.length (Js.trim n))%nat
            /\ (String.length n <= 100)%nat.

Definition history_rule (p : PartialMaternalProfile.t) : Prop :=
  forall entries, PartialMaternalProfile.medicalHistory p = Some entries ->
    Forall (fun history => (String.length history <= 1000)%nat) entries.

Definition age_rule (p : PartialMaternalProfile.t) : Prop :=
  exists a, PartialMaternalProfile.age p = Some a /\ (16 <= a)%Q /\ (a <= 60)%Q.

Definition blood_type_rule (p : PartialMaternalProfile.t) : Prop :=
  exists b, PartialMaternalProfile.bloodType p = Some b /\ In b BLOOD_TYPES.

(** The conditions under which [POST /maternal-profiles] stores a profile:
    the sanitised body is valid, the provider it names is stored and
    active, and the due date is a valid date of time value [ms]. *)
Definition profile_request_passes (body : PartialMaternalProfile.t) (s : State)
    (ms : Z) : Prop :=
  validateProfile (sanitize_body body) = None
  /\ (exists provider,
        providerStorage s !! PartialMaternalProfile.primaryCareProviderId body = Some provider
        /\ HealthcareProvider.isActive provider = true)
  /\ PartialMaternalProfile.dueDate body = Some ms.

(** The conditions under which [POST /health-metrics] stores a snapshot. *)
Definition metrics_request_passes (body : PartialHealthMetrics.t) (s : State) : Prop :=
  is_Some (maternalProfileStorage s !! PartialHealthMetrics.maternalProfileId body)
  /\ validateHealthMetrics body = None.

Definition valid_profile_body : PartialMaternalProfile.t :=
  sample_profile_body (Some "<Amina>") "dr-1".

(** A body with HIGH readings whose [recordedAt] is beyond the range of
    [Date]. *)
Definition undatable_high_body : PartialHealthMetrics.t :=
  {| PartialHealthMetrics.id := None;
     PartialHealthMetrics.maternalProfileId := "p-1";
     PartialHealthMetrics.recordedAt := Some (10 ^ 25)%Z;
     PartialHealthMetrics.weight := None;
     PartialHealthMetrics.bloodPressureSystolic := Some 150%Q;
     PartialHealthMetrics.bloodPressureDiastolic := Some 95%Q;
     PartialHealthMetrics.bloodSugar := Some 100%Q;
     PartialHealthMetrics.hemoglobinLevels := Some 12%Q;
     PartialHealthMetrics.fetalHeartRate := None;
     PartialHealthMetrics.notes := None;
     PartialHealthMetrics.recordedById := Some "dr-1";
     PartialHealthMetrics.isFlaggedForReview := None |}.

Definition has_no_angle_bracket (s : string) : Prop :=
  ~ In "<"%char (list_ascii_of_string s) /\ ~ In ">"%char (list_ascii_of_string s).

(** What holds of every profile the create-profile handler stores. *)
Definition stored_profile_valid (p : MaternalProfile.t) : Prop :=
  (exists n, MaternalProfile.name p = Some n
             /\ has_no_angle_bracket n
             /\ (2 <= String.length (Js.trim n))%nat
             /\ (String.length n <= 100)%nat)
  /\ (forall c, MaternalProfile.emergencyContact p = Some c -> has_no_angle_bracket c)
  /\ (exists a, MaternalProfile.age p = Some a /\ (16 <= a)%Q /\ (a <= 60)%Q)
  /\ (exists b, MaternalProfile.bloodType p = Some b /\ In b BLOOD_TYPES)
  /\ Forall (fun history => (String.length history <= 1000)%nat)
            (MaternalProfile.medicalHistory p)
  /\ (exists ms : Z, MaternalProfile.dueDate p = (ms * NANOS_PER_MILLISECOND)%Z).

(** All five stores empty. *)
Definition empty_state : State :=
  {| maternalProfileStorage := ∅;
     providerStorage := ∅;
     metricsStorage := ∅;
     visitStorage := ∅;
     alertStorage := ∅ |}.

(** Every entry of the three stores the handlers write is filed under its
    own [id]. *)
Definition keyed_by_id (s : State) : Prop :=
  map_Forall (fun k p => MaternalProfile.id p = k) (maternalProfileStorage s)
  /\ map_Forall (fun k m => HealthMetrics.id m = k) (metricsStorage s)
  /\ map_Forall (fun k a => HealthAlert.id a = k) (alertStorage s).

(** Every alert belongs to a stored profile. *)
Definition alerts_have_profiles (s : State) : Prop :=
  map_Forall (fun _ a => is_Some (maternalProfileStorage s !! HealthAlert.maternalProfileId a))
             (alertStorage s).

(** Every snapshot belongs to a stored profile. *)
Definition metrics_have_profiles (s : State) : Prop :=
  map_Forall (fun _ m => is_Some (maternalProfileStorage s !! HealthMetrics.maternalProfileId m))
             (metricsStorage s).

(** Every stored snapshot that [assessRisk] classifies HIGH is flagged. *)
Definition high_snapshots_flagged (s : State) : Prop :=
  map_Forall (fun _ m => assessRisk m = true -> HealthMetrics.isFlaggedForReview m = true)
             (metricsStorage s).

(** The state after the sample profile request. *)
Definition after_profile_created : State :=
  fst (post_maternal_profiles profile_env valid_profile_body sample_state).

(** Two providers and nothing else stored. *)
Definition clinic_state : State :=
  {| maternalProfileStorage := ∅;
     providerStorage := providerStorage sample_state;
     metricsStorage := ∅;
     visitStorage := ∅;
     alertStorage := ∅ |}.

(** A profile is created for the clinic, then a HIGH snapshot is recorded
    for it. *)
Definition clinic_after_visit : State :=
  fst (handle first_env
         (PostHealthMetrics
            {| PartialHealthMetrics.id := None;
               PartialHealthMetrics.maternalProfileId := "p-2";
               PartialHealthMetrics.recordedAt := None;
               PartialHealthMetrics.weight := None;
               PartialHealthMetrics.bloodPressureSystolic := Some 150%Q;
               PartialHealthMetrics.bloodPressureDiastolic := Some 95%Q;
               PartialHealthMetrics.bloodSugar := None;
               PartialHealthMetrics.hemoglobinLevels := None;
               PartialHealthMetrics.fetalHeartRate := None;
               PartialHealthMetrics.notes := None;
               PartialHealthMetrics.recordedById := Some "dr-1";
               PartialHealthMetrics.isFlaggedForReview := None |})
         (fst (handle profile_env (PostMaternalProfiles valid_profile_body) clinic_state))).

(** Readings at least as alarming in [m'] as in [m]: each pressure and
    sugar reading of [m] is present and no lower in [m'], and the
    haemoglobin reading of [m] is present and no higher in [m']. *)
Definition no_lower (x y : option Q) : Prop :=
  forall v, x = Some v -> exists w, y = Some w /\ (v <= w)%Q.

Definition no_higher (x y : option Q) : Prop :=
  forall v, x = Some v -> exists w, y = Some w /\ (w <= v)%Q.

Definition at_least_as_alarming (m m' : HealthMetrics.t) : Prop :=
  no_lower (HealthMetrics.bloodPressureSystolic m) (HealthMetrics.bloodPressureSystolic m')
  /\ no_lower (HealthMetrics.bloodPressureDiastolic m) (HealthMetrics.bloodPressureDiastolic m')
  /\ no_lower (HealthMetrics.bloodSugar m) (HealthMetrics.bloodSugar m')
  /\ no_higher (HealthMetrics.hemoglobinLevels m) (HealthMetrics.hemoglobinLevels m').

(** The number of profiles on a page, for [total] profiles stored. *)
Definition page_size (total page limit : Z) : Z :=
  Z.min limit (Z.max 0 (total - (page - 1) * limit)).

(** A body for profile ["p-1"] that carries no reading at all. *)
Definition body_without_readings : PartialHealthMetrics.t :=
  {| PartialHealthMetrics.id := None;
     PartialHealthMetrics.maternalProfileId := "p-1";
     PartialHealthMetrics.recordedAt := None;
     PartialHealthMetrics.weight := None;
     PartialHealthMetrics.bloodPressureSystolic := None;
     PartialHealthMetrics.bloodPressureDiastolic := None;
     PartialHealthMetrics.bloodSugar := None;
     PartialHealthMetrics.hemoglobinLevels := None;
     PartialHealthMetrics.fetalHeartRate := None;
     PartialHealthMetrics.notes := Some "phone consultation";
     PartialHealthMetrics.recordedById := Some "dr-1";
     PartialHealthMetrics.isFlaggedForReview := None |}.

(** * Properties *)

(** ** Sample evaluations *)

Example sanitize_script :
  sanitizeString "<b>a > b</b>" = "ba  b/b".
Proof. reflexivity. Qed.

Example trim_sample : Js.trim "  ab c  " = "ab c".
Proof. reflexivity. Qed.

Example slice_negative : Js.slice [1; 2; 3; 4; 5]%nat (-3) (-1) = [3; 4]%nat.
Proof. reflexivity. Qed.

Example scenario_readings_high : assessRisk (sample_metrics 150 95 100 12) = true.
Proof. reflexivity. Qed.

Example low_hemoglobin_high : assessRisk (sample_metrics 118 76 95 (17 # 2)) = true.
Proof. reflexivity. Qed.

Example zero_systolic_not_validated :
  validateHealthMetrics (sample_metrics_body 0 76 95 12 None) = None
  /\ validateHealthMetrics (sample_metrics_body 60 76 95 12 None)
     = Some "Invalid systolic blood pressure range".
Proof. split; reflexivity. Qed.

Example scenario_profile_created :
  exists p,
    maternalProfileStorage
      (fst (post_maternal_profiles profile_env (sample_profile_body (Some "<Amina>") "dr-1")
              sample_state)) !! "p-2" = Some p
    /\ MaternalProfile.name p = Some "Amina"
    /\ MaternalProfile.riskLevel p = LOW
    /\ MaternalProfile.currentTrimester p = FIRST
    /\ MaternalProfile.dueDate p = 1800000000000000000%Z.
Proof. eexists. split; [vm_compute; reflexivity|]. by repeat split. Qed.

Example scenario_metrics_flagged :
  exists m,
    metricsStorage state_with_open_alert !! "m-1" = Some m
    /\ HealthMetrics.isFlaggedForReview m = true
    /\ map (fun a => (HealthAlert.severity a, HealthAlert.escalationLevel a))
          (open_alerts_of "p-1" state_with_open_alert) = [(HIGH, 1%Z)].
Proof. eexists. split; [vm_compute; reflexivity|]. split; [done|]. vm_compute. reflexivity. Qed.

(** ** Numbers *)

Lemma Qlt_bool_iff (x y : Q) : Js.Qlt_bool x y = true <-> (x < y)%Q.
Proof.
  unfold Js.Qlt_bool. rewrite negb_true_iff, <- not_true_iff_false, Qle_bool_iff.
  split; [apply Qnot_le_lt | apply Qlt_not_le].
Qed.

Lemma ge_true_iff (x : option Q) (c : Q) :
  Js.ge x c = true <-> exists v, x = Some v /\ (c <= v)%Q.
Proof.
  destruct x as [v|]; simpl.
  - rewrite Qle_bool_iff. split; [eauto | intros (w & [= <-] & ?); done].
  - split; [done | intros (w & [=] & _)].
Qed.

Lemma gt_true_iff (x : option Q) (c : Q) :
  Js.gt x c = true <-> exists v, x = Some v /\ (c < v)%Q.
Proof.
  destruct x as [v|]; simpl.
  - rewrite Qlt_bool_iff. split; [eauto | intros (w & [= <-] & ?); done].
  - split; [done | intros (w & [=] & _)].
Qed.

Lemma lt_true_iff (x : option Q) (c : Q) :
  Js.lt x c = true <-> exists v, x = Some v /\ (v < c)%Q.
Proof.
  destruct x as [v|]; simpl.
  - rewrite Qlt_bool_iff. split; [eauto | intros (w & [= <-] & ?); done].
  - split; [done | intros (w & [=] & _)].
Qed.

(** ** The risk classifier *)

Lemma assessRisk_true_iff (m : HealthMetrics.t) :
  assessRisk m = true <->
    systolic_trigger m \/ diastolic_trigger m \/ sugar_trigger m \/ hemoglobin_trigger m.
Proof.
  unfold assessRisk, systolic_trigger, diastolic_trigger, sugar_trigger, hemoglobin_trigger.
  rewrite !orb_true_iff, !ge_true_iff, gt_true_iff, lt_true_iff. tauto.
Qed.

(** C3: [assessRisk] answers HIGH ([true]) exactly when the systolic reading
    is at least 140, or the diastolic reading is at least 90, or the blood
    sugar is above 140, or the haemoglobin is below 9, and LOW ([false])
    otherwise; the disjunction may be read in any order, and a systolic
    reading of at least 140 alone makes the answer HIGH whatever the other
    fields are. *)
Theorem assessRisk_high_iff_trigger (m : HealthMetrics.t) :
  (assessRisk m = true <->
     systolic_trigger m \/ diastolic_trigger m \/ sugar_trigger m \/ hemoglobin_trigger m)
  /\ (assessRisk m = true <->
        hemoglobin_trigger m \/ sugar_trigger m \/ diastolic_trigger m \/ systolic_trigger m)
  /\ (assessRisk m = false <->
        ~ (systolic_trigger m \/ diastolic_trigger m \/ sugar_trigger m \/ hemoglobin_trigger m))
  /\ (systolic_trigger m -> assessRisk m = true).
Proof.
  pose proof (assessRisk_true_iff m) as Hiff.
  repeat split.
  - apply Hiff.
  - intros H. apply Hiff. exact H.
  - rewrite Hiff. tauto.
  - rewrite Hiff. tauto.
  - intros H Ht. apply Hiff in Ht. congruence.
  - intros H. destruct (assessRisk m) eqn:E; [|done]. exfalso. apply H, Hiff. done.
  - intros H. apply Hiff. by left.
Qed.

(** C5, as stated, fails: a systolic reading of 150 lies within the
    validation range [70,190], the other readings are unremarkable, and
    [assessRisk] answers HIGH. *)
Lemma in_range_snapshot_classified_high :
  ~ (forall m : HealthMetrics.t, within_validation_ranges m -> assessRisk m = false).
Proof.
  intros H. specialize (H (sample_metrics 150 80 100 12)).
  assert (Hhigh : assessRisk (sample_metrics 150 80 100 12) = true) by reflexivity.
  rewrite H in Hhigh; [discriminate|].
  unfold within_validation_ranges; simpl.
  repeat split; eexists; (split; [reflexivity|]); split; by apply Qle_bool_iff.
Qed.

(** C5, amended: a snapshot whose readings are within the validation ranges
    and below the alert thresholds (systolic in [70,140), diastolic in
    [40,90), blood sugar in [30,140], haemoglobin at least 9) is classified
    LOW. *)
Theorem assessRisk_low_within_safe_ranges (m : HealthMetrics.t) :
  within_safe_ranges m -> assessRisk m = false.
Proof.
  intros ((s & Hs & _ & Hs') & (d & Hd & _ & Hd') & (g & Hg & _ & Hg') & (h & Hh & Hh')).
  destruct (assessRisk m) eqn:E; [|done]. exfalso.
  apply assessRisk_true_iff in E.
  destruct E as [(v & Hv & Hle)|[(v & Hv & Hle)|[(v & Hv & Hle)|(v & Hv & Hle)]]];
    simplify_eq.
  - by apply (Qlt_not_le _ _ Hs').
  - by apply (Qlt_not_le _ _ Hd').
  - by apply (Qlt_not_le _ _ Hle).
  - by apply (Qlt_not_le _ _ Hle).
Qed.

Lemma assessRisk_low_within_safe_ranges_witness :
  within_safe_ranges (sample_metrics 118 76 95 12)
  /\ assessRisk (sample_metrics 118 76 95 12) = false.
Proof.
  assert (H : within_safe_ranges (sample_metrics 118 76 95 12)).
  { unfold within_safe_ranges; simpl.
    repeat split; eexists; (split; [reflexivity|]);
      repeat split; first [by apply Qle_bool_iff | by apply Qlt_bool_iff]. }
  split; [exact H | exact (assessRisk_low_within_safe_ranges _ H)].
Defined.

(** ** Sanitisation *)

Lemma sanitizeString_cons (c : ascii) (s : string) :
  sanitizeString (String c s) =
    if (Ascii.eqb c "<" || Ascii.eqb c ">")%bool then sanitizeString s
    else String c (sanitizeString s).
Proof. reflexivity. Qed.

(** C10: the result of [sanitizeString] holds neither ['<'] nor ['>'], and
    sanitising twice is sanitising once. *)
Theorem sanitizeString_strips_angles_idempotent (s : string) :
  ~ In "<"%char (list_ascii_of_string (sanitizeString s))
  /\ ~ In ">"%char (list_ascii_of_string (sanitizeString s))
  /\ sanitizeString (sanitizeString s) = sanitizeString s.
Proof.
  induction s as [|c s (IHlt & IHgt & IHidem)]; [by simpl; intuition|].
  rewrite sanitizeString_cons.
  destruct (Ascii.eqb c "<" || Ascii.eqb c ">")%bool eqn:E; [done|].
  apply orb_false_iff in E as [Elt Egt].
  apply Ascii.eqb_neq in Elt, Egt.
  repeat split.
  - simpl. intros [?|?]; [congruence | by apply IHlt].
  - simpl. intros [?|?]; [congruence | by apply IHgt].
  - rewrite sanitizeString_cons.
    destruct (Ascii.eqb c "<" || Ascii.eqb c ">")%bool eqn:E'.
    + apply orb_true_iff in E' as [E'|E']; apply Ascii.eqb_eq in E'; congruence.
    + by rewrite IHidem.
Qed.

(** ** Profile validation *)

Example long_padded_name_lengths :
  String.length long_padded_name = 101%nat
  /\ String.length (Js.trim long_padded_name) = 2%nat.
Proof. split; reflexivity. Qed.

(** C8, as stated, fails: a name of two letters followed by 99 spaces has
    trimmed length 2, within [2,100], and [validateProfile] reports the name
    error, because its upper bound is on the untrimmed length. *)
Lemma padded_name_rejected : ~ name_rule_on_trimmed_length.
Proof.
  intros H.
  pose (p := sample_profile_body (Some long_padded_name) "dr-1").
  destruct (H p long_padded_name eq_refl) as [Hfwd _].
  assert (Herr : validateProfile p = Some NAME_ERROR) by (vm_compute; reflexivity).
  apply Hfwd in Herr.
  destruct long_padded_name_lengths as [_ Hlen]. rewrite Hlen in Herr. lia.
Qed.

(** C8, amended: [validateProfile] reports the name error exactly when the
    name is missing, or its trimmed length is below 2, or its untrimmed
    length is above 100; the name rule is the first one checked, so this
    holds whatever the other fields are. *)
Theorem validateProfile_name_error_iff (p : PartialMaternalProfile.t) :
  validateProfile p = Some NAME_ERROR <->
    match PartialMaternalProfile.name p with
    | None => True
    | Some n => (String.length (Js.trim n) < 2)%nat \/ (100 < String.length n)%nat
    end.
Proof.
  unfold validateProfile.
  destruct (PartialMaternalProfile.name p) as [n|]; simpl; [|done].
  destruct (String.eqb_spec n "") as [->|Hne]; simpl.
  { split; [intros _; left; simpl; lia | done]. }
  destruct (Nat.ltb_spec (String.length (Js.trim n)) 2) as [Hshort|Hshort]; simpl.
  { split; [by left | done]. }
  destruct (Nat.ltb_spec 100 (String.length n)) as [Hlong|Hlong]; simpl.
  { split; [by right | done]. }
  split; [|lia].
  repeat match goal with
         | |- context [if ?b then _ else _] => destruct b
         end; discriminate.
Qed.


(** ** What the handlers do to the stores *)

Lemma assessRisk_flag_for_review (m : HealthMetrics.t) :
  assessRisk (flag_for_review m) = assessRisk m.
Proof. reflexivity. Qed.

Lemma alertStorage_insert_metrics (m : HealthMetrics.t) (s : State) :
  alertStorage (insert_metrics m s) = alertStorage s.
Proof. reflexivity. Qed.

Lemma createHighRiskAlert_alertStorage (uuid : string) (now : Z)
    (m : HealthMetrics.t) (s : State) :
  exists a,
    alertStorage (createHighRiskAlert uuid now m s) = <[uuid := a]> (alertStorage s)
    /\ as_created a
    /\ HealthAlert.id a = uuid
    /\ HealthAlert.maternalProfileId a = HealthMetrics.maternalProfileId m
    /\ HealthAlert.providerId a = HealthMetrics.recordedById m
    /\ HealthAlert.resolutionNotes a = None.
Proof. eexists. split; [reflexivity|]. by repeat split. Qed.

Lemma post_health_metrics_accepted (env : Env) (body : PartialHealthMetrics.t) (s : State) :
  is_Some (maternalProfileStorage s !! PartialHealthMetrics.maternalProfileId body) ->
  validateHealthMetrics body = None ->
  fst (post_health_metrics env body s) =
    insert_metrics (recorded_metrics env body)
      (if assessRisk (new_metrics env body)
       then createHighRiskAlert (uuidv4 env 1) (ic_time env) (recorded_metrics env body) s
       else s).
Proof.
  intros [p Hp] Hv. unfold post_health_metrics, recorded_metrics. rewrite Hp, Hv.
  by destruct (serializeMetrics _).
Qed.

Lemma post_health_metrics_rejected (env : Env) (body : PartialHealthMetrics.t) (s : State) :
  maternalProfileStorage s !! PartialHealthMetrics.maternalProfileId body = None
  \/ validateHealthMetrics body <> None ->
  fst (post_health_metrics env body s) = s.
Proof.
  unfold post_health_metrics. intros [Hp|Hv].
  - by rewrite Hp.
  - destruct (maternalProfileStorage s !! _); [|done].
    by destruct (validateHealthMetrics body).
Qed.

Lemma post_maternal_profiles_alertStorage (env : Env) (body : PartialMaternalProfile.t)
    (s : State) :
  alertStorage (fst (post_maternal_profiles env body s)) = alertStorage s.
Proof.
  unfold post_maternal_profiles.
  repeat match goal with
         | |- context [match ?x with _ => _ end] => destruct x
         end; reflexivity.
Qed.

Lemma get_maternal_profiles_state (page limit : option Z) (s : State) :
  fst (get_maternal_profiles page limit s) = s.
Proof. unfold get_maternal_profiles. by destruct (map_result _ _). Qed.

(** Handling a request leaves the alert store as it is, or writes one alert,
    with the values of [createHighRiskAlert], under the identifier
    [uuidv4()] returned. *)
Lemma handle_alertStorage (env : Env) (req : Request) (s : State) :
  alertStorage (fst (handle env req s)) = alertStorage s
  \/ exists a, as_created a
       /\ HealthAlert.resolutionNotes a = None
       /\ alertStorage (fst (handle env req s)) = <[uuidv4 env 1%nat := a]> (alertStorage s).
Proof.
  destruct req as [body|body|page limit]; simpl.
  - left. apply post_maternal_profiles_alertStorage.
  - destruct (maternalProfileStorage s !! PartialHealthMetrics.maternalProfileId body)
      as [p|] eqn:Hp; [|left; by rewrite post_health_metrics_rejected; auto].
    destruct (validateHealthMetrics body) as [e|] eqn:Hv;
      [left; rewrite post_health_metrics_rejected; [done | right; by rewrite Hv]|].
    rewrite post_health_metrics_accepted by (rewrite ?Hp; eauto).
    destruct (assessRisk (new_metrics env body)); [|by left].
    right.
    destruct (createHighRiskAlert_alertStorage (uuidv4 env 1%nat) (ic_time env)
                (recorded_metrics env body) s) as (a & Ha & Hc & _ & _ & _ & Hn).
    exists a. split; [exact Hc|]. split; [exact Hn|]. exact Ha.
  - left. by rewrite get_maternal_profiles_state.
Qed.

(** ** Alerts are created at level 1 and never touched again *)

(** C9: every alert written to the alert store has severity HIGH,
    escalation level 1, [resolved = false] and [resolvedAt = null]; a request
    writes at most the key [uuidv4()] has just returned and removes none, so
    an alert stored under another identifier, and every stored alert when the
    identifier is new, stays as it is; hence in every state reached from a
    store whose alerts have these values (the empty store among them) every
    stored alert is unresolved with escalation level 1. *)
Theorem stored_alerts_as_created (s0 s : State) :
  map_Forall (fun _ a => as_created a) (alertStorage s0) ->
  reachable s0 s ->
  map_Forall (fun _ a => as_created a) (alertStorage s)
  /\ (forall id a, alertStorage s !! id = Some a ->
        HealthAlert.resolved a = false /\ HealthAlert.escalationLevel a = 1%Z)
  /\ (forall env req,
        (alertStorage (fst (handle env req s)) = alertStorage s
         \/ exists a, as_created a
              /\ alertStorage (fst (handle env req s))
                 = <[uuidv4 env 1%nat := a]> (alertStorage s))
        /\ (forall id, id <> uuidv4 env 1%nat ->
              alertStorage (fst (handle env req s)) !! id = alertStorage s !! id)
        /\ (alertStorage s !! uuidv4 env 1%nat = None ->
              alertStorage s ⊆ alertStorage (fst (handle env req s)))).
Proof.
  intros H0 Hreach.
  assert (Hinv : map_Forall (fun _ a => as_created a) (alertStorage s)).
  { induction Hreach as [|s env req _ IH]; [done|].
    destruct (handle_alertStorage env req s) as [->|(a & Ha & _ & ->)]; [done|].
    by apply map_Forall_insert_2. }
  split; [exact Hinv|]. split.
  - intros id a Hid. destruct (Hinv id a Hid) as (_ & ? & ? & _). done.
  - intros env req.
    destruct (handle_alertStorage env req s) as [->|(a & Ha & _ & ->)].
    + split; [by left|]. split; [done|]. done.
    + split; [right; eauto|]. split.
      * intros id Hne. by rewrite lookup_insert_ne.
      * intros Hfresh. by apply insert_subseteq.
Qed.

Lemma sample_run_reachable : reachable sample_state after_two_high_recordings.
Proof.
  exact (reachable_handle _ _ second_env
           (PostHealthMetrics (sample_metrics_body 150 95 100 12 None))
           (reachable_handle _ _ first_env
              (PostHealthMetrics (sample_metrics_body 150 95 100 12 None))
              (reachable_start _))).
Defined.

Lemma stored_alerts_as_created_witness :
  map_Forall (fun _ a => as_created a) (alertStorage sample_state)
  /\ reachable sample_state after_two_high_recordings
  /\ map_Forall (fun _ a => as_created a) (alertStorage after_two_high_recordings).
Proof.
  assert (H0 : map_Forall (fun _ a => as_created a) (alertStorage sample_state))
    by apply map_Forall_empty.
  split; [exact H0|]. split; [exact sample_run_reachable|].
  exact (proj1 (stored_alerts_as_created _ _ H0 sample_run_reachable)).
Defined.

(** ** Repeated HIGH-triggering recordings *)

(** C1, as stated, fails: after two consecutive HIGH-triggering recordings
    for one profile the alert store holds two open alerts for it, both at
    escalation level 1, not one alert at level 2. *)
Lemma two_high_recordings_two_alerts :
  map (fun a => (HealthAlert.id a, HealthAlert.escalationLevel a))
      (open_alerts_of "p-1" after_two_high_recordings) = [("a-1", 1%Z); ("a-2", 1%Z)]
  /\ ~ one_open_alert_escalated.
Proof.
  assert (H : map (fun a => (HealthAlert.id a, HealthAlert.escalationLevel a))
                (open_alerts_of "p-1" after_two_high_recordings)
              = [("a-1", 1%Z); ("a-2", 1%Z)]) by (vm_compute; reflexivity).
  split; [exact H|].
  intros (a & Ha & _). rewrite Ha in H. discriminate H.
Qed.

(** C1, amended: a HIGH-triggering snapshot that is accepted (its profile is
    stored and the body passes [validateHealthMetrics]) adds one new alert
    for that profile under the identifier [uuidv4()] returns, with
    severity HIGH, escalation level 1 and [resolved = false]; when that
    identifier is new the alert store grows by one and every alert already
    stored is left as it was, so no alert is escalated. *)
Theorem triggering_snapshot_adds_level_one_alert (env : Env)
    (body : PartialHealthMetrics.t) (s : State) :
  is_Some (maternalProfileStorage s !! PartialHealthMetrics.maternalProfileId body) ->
  validateHealthMetrics body = None ->
  assessRisk (new_metrics env body) = true ->
  alertStorage s !! uuidv4 env 1%nat = None ->
  exists a,
    alertStorage (fst (post_health_metrics env body s))
      = <[uuidv4 env 1%nat := a]> (alertStorage s)
    /\ HealthAlert.maternalProfileId a = PartialHealthMetrics.maternalProfileId body
    /\ as_created a
    /\ size (alertStorage (fst (post_health_metrics env body s)))
       = S (size (alertStorage s))
    /\ (forall id b, alertStorage s !! id = Some b ->
          alertStorage (fst (post_health_metrics env body s)) !! id = Some b).
Proof.
  intros Hp Hv Hhigh Hfresh.
  rewrite (post_health_metrics_accepted env body s Hp Hv), Hhigh.
  destruct (createHighRiskAlert_alertStorage (uuidv4 env 1%nat) (ic_time env)
              (recorded_metrics env body) s) as (a & Ha & Hc & _ & Hpid & _).
  exists a. rewrite alertStorage_insert_metrics, Ha. split; [done|]. split.
  { rewrite Hpid. unfold recorded_metrics. by rewrite Hhigh. }
  split; [done|]. split.
  - by apply map_size_insert_None.
  - intros id b Hb. rewrite lookup_insert_ne; [done|]. congruence.
Qed.

Lemma triggering_snapshot_adds_level_one_alert_witness :
  exists a,
    alertStorage (fst (post_health_metrics first_env
                         (sample_metrics_body 150 95 100 12 None) sample_state))
      = <["a-1" := a]> ∅
    /\ HealthAlert.escalationLevel a = 1%Z.
Proof.
  destruct (triggering_snapshot_adds_level_one_alert first_env
              (sample_metrics_body 150 95 100 12 None) sample_state)
    as (a & Ha & _ & (_ & Hl & _) & _).
  - by eexists.
  - reflexivity.
  - reflexivity.
  - reflexivity.
  - exists a. split; [exact Ha | exact Hl].
Defined.

(** ** The review flag *)

(** C2 on the code: a body whose readings are below every trigger and which
    carries [isFlaggedForReview: true] is stored with the flag set, while
    [assessRisk] answers LOW for it and no alert is created; the spread of
    the body overrides the default [isFlaggedForReview: false]. *)
Theorem low_verdict_stored_flagged :
  exists m,
    metricsStorage after_flagged_low_recording !! "m-1" = Some m
    /\ assessRisk m = false
    /\ HealthMetrics.isFlaggedForReview m = true
    /\ alertStorage after_flagged_low_recording = alertStorage sample_state.
Proof.
  eexists. split; [vm_compute; reflexivity|]. by repeat split.
Qed.

(** Without the key in the body, or with [false] under it, the stored flag
    is the verdict of [assessRisk], and an alert is written exactly when
    the verdict is HIGH. *)
Lemma flag_follows_verdict_without_body_flag (env : Env)
    (body : PartialHealthMetrics.t) (s : State) :
  is_Some (maternalProfileStorage s !! PartialHealthMetrics.maternalProfileId body) ->
  validateHealthMetrics body = None ->
  default false (PartialHealthMetrics.isFlaggedForReview body) = false ->
  metricsStorage (fst (post_health_metrics env body s))
    !! HealthMetrics.id (recorded_metrics env body) = Some (recorded_metrics env body)
  /\ HealthMetrics.isFlaggedForReview (recorded_metrics env body)
     = assessRisk (recorded_metrics env body)
  /\ (assessRisk (recorded_metrics env body) = false ->
      alertStorage (fst (post_health_metrics env body s)) = alertStorage s).
Proof.
  intros Hp Hv Hflag.
  rewrite (post_health_metrics_accepted env body s Hp Hv).
  split; [simpl; apply lookup_insert_eq|].
  unfold recorded_metrics.
  destruct (assessRisk (new_metrics env body)) eqn:E.
  - split; [by rewrite assessRisk_flag_for_review, E|].
    rewrite assessRisk_flag_for_review, E. discriminate.
  - split; [by rewrite E|]. done.
Qed.

(** ** Profiles and inactive providers *)

Lemma sanitize_body_provider (body : PartialMaternalProfile.t) :
  PartialMaternalProfile.primaryCareProviderId (sanitize_body body)
  = PartialMaternalProfile.primaryCareProviderId body.
Proof. reflexivity. Qed.

(** C6, as stated, fails: a request with a one-letter name that names the
    inactive provider is answered with the name error, because validation
    comes before the provider is looked up. *)
Lemma invalid_body_reported_before_provider : ~ inactive_provider_always_reported.
Proof.
  intros H.
  destruct (H first_env (sample_profile_body (Some "A") "dr-2") sample_state
              (sample_provider "dr-2" false)) as [Hjson _]; [reflexivity | reflexivity |].
  vm_compute in Hjson. discriminate Hjson.
Qed.

(** C6, amended: a create-profile request that names a stored provider with
    [isActive = false] never changes the state, so no profile is persisted;
    and when its sanitised body passes [validateProfile] it is answered with
    status 400 and the error "Selected healthcare provider is not active". *)
Theorem inactive_provider_rejected (env : Env) (body : PartialMaternalProfile.t)
    (s : State) (provider : HealthcareProvider.t) :
  providerStorage s !! PartialMaternalProfile.primaryCareProviderId body = Some provider ->
  HealthcareProvider.isActive provider = false ->
  fst (post_maternal_profiles env body s) = s
  /\ (validateProfile (sanitize_body body) = None ->
      snd (post_maternal_profiles env body s) = mkResponse 400 (ErrorJson NOT_ACTIVE_ERROR)).
Proof.
  intros Hp Hinactive. unfold post_maternal_profiles.
  rewrite sanitize_body_provider, Hp, Hinactive. simpl.
  destruct (validateProfile (sanitize_body body)); [by split|]. by split.
Qed.

Lemma inactive_provider_rejected_witness :
  fst (post_maternal_profiles first_env (sample_profile_body (Some "Amina") "dr-2")
         sample_state) = sample_state
  /\ snd (post_maternal_profiles first_env (sample_profile_body (Some "Amina") "dr-2")
            sample_state) = mkResponse 400 (ErrorJson NOT_ACTIVE_ERROR).
Proof.
  destruct (inactive_provider_rejected first_env
              (sample_profile_body (Some "Amina") "dr-2") sample_state
              (sample_provider "dr-2" false) eq_refl eq_refl) as [Hs Hr].
  split; [exact Hs | exact (Hr eq_refl)].
Defined.

(** ** Serialization of malformed instants *)

Lemma render_instant_malformed (t : Z) :
  malformed_instant t -> render_instant t = Js.Throw Js.RangeError.
Proof.
  unfold malformed_instant, render_instant, Js.toISOString. intros H.
  destruct (Z.leb_spec (Z.abs (Z.quot t NANOS_PER_MILLISECOND)) Js.MAX_TIME_VALUE); [lia|done].
Qed.

Lemma render_instant_cases (t : Z) :
  (malformed_instant t /\ render_instant t = Js.Throw Js.RangeError)
  \/ (~ malformed_instant t
      /\ render_instant t = Js.Return (Js.ISO (Z.quot t NANOS_PER_MILLISECOND))).
Proof.
  unfold malformed_instant, render_instant, Js.toISOString.
  destruct (Z.leb_spec (Z.abs (Z.quot t NANOS_PER_MILLISECOND)) Js.MAX_TIME_VALUE);
    [right | left]; split; (lia || reflexivity).
Qed.

Lemma render_optional_instant_malformed (t : Z) :
  malformed_instant t -> render_optional_instant (Some t) = Js.Throw Js.RangeError.
Proof.
  intros H. unfold render_optional_instant, Js.truthy_bigint.
  destruct (Z.eqb_spec t 0) as [->|_]; simpl.
  - unfold malformed_instant in H. vm_compute in H. discriminate H.
  - by apply render_instant_malformed.
Qed.

(** C7, as stated, fails for metrics: a snapshot whose [recordedAt] is
    beyond the range of [Date] makes [serializeMetrics] throw. *)
Lemma serializeMetrics_throws : ~ metrics_serialization_degrades.
Proof.
  intros H. destruct (H unrepresentable_metrics) as [j Hj].
  - unfold malformed_instant. vm_compute. reflexivity.
  - vm_compute in Hj. discriminate Hj.
Qed.

Lemma serializeProfile_returns (p : MaternalProfile.t) :
  exists j, serializeProfile p = Js.Return j
    /\ SerializedProfile.spread j = p
    /\ (malformed_instant (MaternalProfile.dueDate p)
        \/ malformed_instant (MaternalProfile.createdAt p)
        \/ malformed_instant (MaternalProfile.lastUpdated p) ->
        SerializedProfile.dueDate j = INVALID_DATE
        /\ SerializedProfile.createdAt j = INVALID_DATE
        /\ SerializedProfile.lastUpdated j = INVALID_DATE).
Proof.
  unfold serializeProfile.
  destruct (render_instant_cases (MaternalProfile.dueDate p)) as [[_ ->]|[N1 ->]];
    [by eexists|].
  destruct (render_instant_cases (MaternalProfile.createdAt p)) as [[_ ->]|[N2 ->]];
    [by eexists|].
  destruct (render_instant_cases (MaternalProfile.lastUpdated p)) as [[_ ->]|[N3 ->]];
    [by eexists|].
  eexists. split; [reflexivity|]. split; [reflexivity|]. tauto.
Qed.

Lemma serializeMetrics_malformed (m : HealthMetrics.t) :
  malformed_instant (HealthMetrics.recordedAt m) ->
  serializeMetrics m = Js.Throw (Js.Error "Failed to serialize metrics data").
Proof. intros H. unfold serializeMetrics. by rewrite (render_instant_malformed _ H). Qed.

(** C7, amended: [serializeProfile] never throws, and when one of the three
    instants of the profile is malformed it puts the text "Invalid Date" in
    place of all three; [serializeMetrics], [serializeVisit] and
    [serializeAlert] throw an [Error] ("Failed to serialize ... data") on a
    malformed instant; the record-metrics handler catches that error and
    answers with status 500, so nothing escapes the handler. *)
Theorem serialization_of_malformed_instants :
  (forall p : MaternalProfile.t,
      exists j, serializeProfile p = Js.Return j
        /\ SerializedProfile.spread j = p
        /\ (malformed_instant (MaternalProfile.dueDate p)
            \/ malformed_instant (MaternalProfile.createdAt p)
            \/ malformed_instant (MaternalProfile.lastUpdated p) ->
            SerializedProfile.dueDate j = INVALID_DATE
            /\ SerializedProfile.createdAt j = INVALID_DATE
            /\ SerializedProfile.lastUpdated j = INVALID_DATE))
  /\ (forall m : HealthMetrics.t,
        malformed_instant (HealthMetrics.recordedAt m) ->
        serializeMetrics m = Js.Throw (Js.Error "Failed to serialize metrics data"))
  /\ (forall v : PrenatalVisit.t,
        malformed_instant (PrenatalVisit.scheduledDate v)
        \/ (exists t, PrenatalVisit.nextVisitDate v = Some t /\ malformed_instant t) ->
        serializeVisit v = Js.Throw (Js.Error "Failed to serialize visit data"))
  /\ (forall a : HealthAlert.t,
        malformed_instant (HealthAlert.createdAt a)
        \/ (exists t, HealthAlert.resolvedAt a = Some t /\ malformed_instant t) ->
        serializeAlert a = Js.Throw (Js.Error "Failed to serialize alert data"))
  /\ (forall (env : Env) (body : PartialHealthMetrics.t) (s : State),
        is_Some (maternalProfileStorage s !! PartialHealthMetrics.maternalProfileId body) ->
        validateHealthMetrics body = None ->
        malformed_instant (HealthMetrics.recordedAt (recorded_metrics env body)) ->
        snd (post_health_metrics env body s)
        = mkResponse 500 (ErrorJson "Failed to record health metrics")).
Proof.
  split; [exact serializeProfile_returns|].
  split; [exact serializeMetrics_malformed|].
  split; [|split].
  - intros v [H|(t & Ht & H)]; unfold serializeVisit.
    + by rewrite (render_instant_malformed _ H).
    + rewrite Ht, (render_optional_instant_malformed _ H).
      by destruct (render_instant (PrenatalVisit.scheduledDate v)).
  - intros a [H|(t & Ht & H)]; unfold serializeAlert.
    + by rewrite (render_instant_malformed _ H).
    + rewrite Ht, (render_optional_instant_malformed _ H).
      by destruct (render_instant (HealthAlert.createdAt a)).
  - intros env body s [p Hp] Hv H.
    unfold post_health_metrics. rewrite Hp, Hv.
    fold (recorded_metrics env body).
    by rewrite (serializeMetrics_malformed _ H).
Qed.

Example sentinel_for_profile :
  serializeProfile profile_created_long_ago
  = Js.Return (SerializedProfile.mk profile_created_long_ago
                 INVALID_DATE INVALID_DATE INVALID_DATE).
Proof. vm_compute. reflexivity. Qed.

Example iso_for_profile :
  serializeProfile sample_profile
  = Js.Return (SerializedProfile.mk sample_profile
                 (Js.ISO 1800000000000) (Js.ISO 1700000000000) (Js.ISO 1700000000000)).
Proof. vm_compute. reflexivity. Qed.

(** ** No request resolves an alert *)

Lemma as_created_preserved (env : Env) (req : Request) (s : State) :
  map_Forall (fun _ a => as_created a) (alertStorage s) ->
  map_Forall (fun _ a => as_created a) (alertStorage (fst (handle env req s))).
Proof.
  intros H.
  destruct (handle_alertStorage env req s) as [->|(a & Ha & _ & ->)]; [done|].
  by apply map_Forall_insert_2.
Qed.

Lemma alert_kept_or_recreated (env : Env) (req : Request) (s : State)
    (id : string) (a : HealthAlert.t) :
  alertStorage s !! id = Some a ->
  exists a',
    alertStorage (fst (handle env req s)) !! id = Some a'
    /\ (a' = a
        \/ (id = uuidv4 env 1%nat /\ as_created a'
            /\ HealthAlert.resolutionNotes a' = None)).
Proof.
  intros Hid.
  destruct (handle_alertStorage env req s) as [->|(b & Hb & Hn & ->)]; [eauto|].
  destruct (decide (uuidv4 env 1%nat = id)) as [<-|Hne].
  - exists b. rewrite lookup_insert_eq. eauto.
  - exists a. rewrite lookup_insert_ne by done. eauto.
Qed.

(** C4, as stated, fails: the program has no alert-resolution operation;
    at the state with the open alert ["a-1"], no request whatever leaves
    that alert with [resolved = true]. *)
Lemma no_resolution_offered : ~ resolution_offered.
Proof.
  intros (env & req & a & Ha & Hres).
  assert (H0 : map_Forall (fun _ a => as_created a) (alertStorage state_with_open_alert)).
  { apply (as_created_preserved first_env
             (PostHealthMetrics (sample_metrics_body 150 95 100 12 None)) sample_state).
    apply map_Forall_empty. }
  destruct (as_created_preserved env req _ H0 _ _ Ha) as (_ & _ & Hr & _).
  congruence.
Qed.

(** C4, amended: the program has no alert-resolution operation.  Whatever
    request is handled, an alert stored under an identifier is still stored
    under it afterwards and is the same alert ([resolved], [resolvedAt],
    [resolutionNotes] and [escalationLevel] included), unless [uuidv4()]
    returns that identifier again, in which case the entry is a newly
    created alert with [resolved = false]; so an unresolved alert stays
    unresolved. *)
Theorem no_request_resolves_an_alert (env : Env) (req : Request) (s : State)
    (id : string) (a : HealthAlert.t) :
  alertStorage s !! id = Some a ->
  exists a',
    alertStorage (fst (handle env req s)) !! id = Some a'
    /\ (a' = a
        \/ (id = uuidv4 env 1%nat /\ as_created a'
            /\ HealthAlert.resolutionNotes a' = None))
    /\ (HealthAlert.resolved a = false -> HealthAlert.resolved a' = false).
Proof.
  intros Hid.
  destruct (alert_kept_or_recreated env req s id a Hid) as (a' & Ha' & Hcases).
  exists a'. split; [done|]. split; [done|].
  destruct Hcases as [->|(_ & (_ & _ & Hr & _) & _)]; done.
Qed.

Lemma no_request_resolves_an_alert_witness :
  exists a a',
    alertStorage state_with_open_alert !! "a-1" = Some a
    /\ alertStorage after_two_high_recordings !! "a-1" = Some a'
    /\ a' = a
    /\ HealthAlert.resolved a' = false.
Proof.
  assert (Hid : alertStorage state_with_open_alert !! "a-1"
                = Some (HealthAlert.mk "a-1" "p-1" 1700000001000000000 HIGH
                          "Abnormal health metrics detected"
                          "Immediate medical review required"
                          false None (Some "dr-1") None 1))
    by (vm_compute; reflexivity).
  destruct (no_request_resolves_an_alert second_env
              (PostHealthMetrics (sample_metrics_body 150 95 100 12 None))
              state_with_open_alert "a-1" _ Hid) as (a' & Ha' & Hcases & Hr).
  eexists _, a'. split; [exact Hid|]. split; [exact Ha'|].
  split; [|exact (Hr eq_refl)].
  destruct Hcases as [->|(Heq & _)]; [reflexivity|].
  vm_compute in Heq. discriminate Heq.
Defined.

(** * Further properties of the code *)

(** ** Validation of metrics *)

Lemma range_check_false_iff (x : option Q) (lo hi : Q) :
  (Js.truthy_number x && (Js.lt x lo || Js.gt x hi))%bool = false
  <-> reading_accepted x lo hi.
Proof.
  destruct x as [v|]; simpl; [|done].
  rewrite andb_false_iff, negb_false_iff, Qeq_bool_iff, orb_false_iff.
  unfold Js.Qlt_bool. rewrite !negb_false_iff, !Qle_bool_iff. tauto.
Qed.

(** X1: [validateHealthMetrics] accepts a body exactly when each of the
    systolic, diastolic and blood-sugar readings is absent, zero, or within
    its range ([70,190], [40,120], [30,500]); no other field is looked at. *)
Theorem validateHealthMetrics_accepts_iff (b : PartialHealthMetrics.t) :
  validateHealthMetrics b = None <->
    reading_accepted (PartialHealthMetrics.bloodPressureSystolic b) 70 190
    /\ reading_accepted (PartialHealthMetrics.bloodPressureDiastolic b) 40 120
    /\ reading_accepted (PartialHealthMetrics.bloodSugar b) 30 500.
Proof.
  rewrite <- !range_check_false_iff. unfold validateHealthMetrics. cbv zeta.
  repeat match goal with
         | |- context [if ?c then Some _ else _] => destruct c
         end; intuition discriminate.
Qed.

(** ** Validation of profiles *)

Lemma name_check_false_iff (p : PartialMaternalProfile.t) :
  (negb (Js.truthy_string (PartialMaternalProfile.name p))
   || match PartialMaternalProfile.name p with
      | Some n => (String.length (Js.trim n) <? 2)%nat || (100 <? String.length n)%nat
      | None => false
      end)%bool = false
  <-> name_rule p.
Proof.
  unfold name_rule. destruct (PartialMaternalProfile.name p) as [n|]; simpl.
  - destruct (String.eqb_spec n "") as [->|Hne]; simpl.
    + split; [done|]. intros (n & [= <-] & H & _). simpl in H. lia.
    + rewrite orb_false_iff, !Nat.ltb_ge. split.
      * intros [? ?]. by exists n.
      * intros (n' & [= <-] & ? & ?). done.
  - split; [done|]. by intros (n & ? & _).
Qed.

Lemma history_check_false_iff (p : PartialMaternalProfile.t) :
  match PartialMaternalProfile.medicalHistory p with
  | Some entries => existsb (fun history => (1000 <? String.length history)%nat) entries
  | None => false
  end = false
  <-> history_rule p.
Proof.
  unfold history_rule. destruct (PartialMaternalProfile.medicalHistory p) as [entries|].
  - split.
    + intros H _ [= <-]. apply List.Forall_forall. intros h Hin.
      apply Nat.ltb_ge. destruct (1000 <? String.length h)%nat eqn:E; [|done].
      exfalso. assert (existsb (fun history => (1000 <? String.length history)%nat) entries = true)
        by (apply existsb_exists; eauto). congruence.
    + intros H. specialize (H entries eq_refl).
      destruct (existsb _ entries) eqn:E; [|done]. exfalso.
      apply existsb_exists in E as (h & Hin & Hlong).
      apply Nat.ltb_lt in Hlong.
      pose proof (proj1 (List.Forall_forall _ _) H h Hin) as Hle. simpl in Hle. lia.
  - split; [|done]. intros _ entries [=].
Qed.

Lemma age_check_false_iff (p : PartialMaternalProfile.t) :
  (negb (Js.truthy_number (PartialMaternalProfile.age p))
   || Js.lt (PartialMaternalProfile.age p) 16
   || Js.gt (PartialMaternalProfile.age p) 60)%bool = false
  <-> age_rule p.
Proof.
  unfold age_rule. destruct (PartialMaternalProfile.age p) as [a|]; simpl.
  - rewrite !orb_false_iff, negb_false_iff, negb_true_iff.
    unfold Js.Qlt_bool. rewrite !negb_false_iff, !Qle_bool_iff. split.
    + intros [[_ ?] ?]. by exists a.
    + intros (a' & [= <-] & H16 & H60). repeat split; try done.
      apply not_true_iff_false. rewrite Qeq_bool_iff. intros H0.
      rewrite H0 in H16. by apply Qle_bool_iff in H16.
  - split; [done|]. by intros (a & ? & _).
Qed.

Lemma blood_type_check_false_iff (p : PartialMaternalProfile.t) :
  (negb (Js.truthy_string (PartialMaternalProfile.bloodType p))
   || match PartialMaternalProfile.bloodType p with
      | Some b => negb (existsb (String.eqb b) BLOOD_TYPES)
      | None => false
      end)%bool = false
  <-> blood_type_rule p.
Proof.
  unfold blood_type_rule. destruct (PartialMaternalProfile.bloodType p) as [b|]; simpl Js.truthy_string.
  - rewrite orb_false_iff, !negb_false_iff. split.
    + intros [_ H]. apply existsb_exists in H as (x & Hin & Hx).
      apply String.eqb_eq in Hx as ->. by exists x.
    + intros (b' & [= <-] & Hin). split.
      * apply negb_true_iff. apply String.eqb_neq. intros ->.
        vm_compute in Hin. intuition discriminate.
      * apply existsb_exists. exists b. split; [done | apply String.eqb_refl].
  - split; [done|]. by intros (b & ? & _).
Qed.

(** The verdict of [validateProfile] in terms of the four rules. *)
Lemma validateProfile_cases (p : PartialMaternalProfile.t) :
  (~ name_rule p /\ validateProfile p = Some NAME_ERROR)
  \/ (name_rule p /\ ~ history_rule p /\ validateProfile p = Some HISTORY_ERROR)
  \/ (name_rule p /\ history_rule p /\ ~ age_rule p /\ validateProfile p = Some AGE_ERROR)
  \/ (name_rule p /\ history_rule p /\ age_rule p /\ ~ blood_type_rule p
      /\ validateProfile p = Some BLOOD_TYPE_ERROR)
  \/ (name_rule p /\ history_rule p /\ age_rule p /\ blood_type_rule p
      /\ validateProfile p = None).
Proof.
  pose proof (name_check_false_iff p) as H1.
  pose proof (history_check_false_iff p) as H2.
  pose proof (age_check_false_iff p) as H3.
  pose proof (blood_type_check_false_iff p) as H4.
  unfold validateProfile. cbv zeta. fold BLOOD_TYPES.
  destruct (negb _ || _)%bool.
  { left. split; [|reflexivity]. intros H. apply H1 in H. discriminate. }
  right. pose proof (proj1 H1 eq_refl) as E1.
  destruct (match PartialMaternalProfile.medicalHistory p with Some _ => _ | None => _ end).
  { left. split; [exact E1|]. split; [|reflexivity]. intros H. apply H2 in H. discriminate. }
  right. pose proof (proj1 H2 eq_refl) as E2.
  destruct (negb _ || _ || _)%bool.
  { left. split; [exact E1|]. split; [exact E2|]. split; [|reflexivity].
    intros H. apply H3 in H. discriminate. }
  right. pose proof (proj1 H3 eq_refl) as E3.
  destruct (negb _ || _)%bool.
  { left. split; [exact E1|]. split; [exact E2|]. split; [exact E3|].
    split; [|reflexivity]. intros H. apply H4 in H. discriminate. }
  right. pose proof (proj1 H4 eq_refl) as E4. tauto.
Qed.

(** X2: [validateProfile] accepts a candidate exactly when all four rules
    hold: a name of trimmed length at least 2 and length at most 100, no
    medical-history entry longer than 1000, an age within [16,60], and one
    of the eight blood types. *)
Theorem validateProfile_accepts_iff (p : PartialMaternalProfile.t) :
  validateProfile p = None <->
    name_rule p /\ history_rule p /\ age_rule p /\ blood_type_rule p.
Proof.
  destruct (validateProfile_cases p)
    as [(? & E)|[(? & ? & E)|[(? & ? & ? & E)|[(? & ? & ? & ? & E)|(? & ? & ? & ? & E)]]]];
    rewrite E; split; try done; try tauto; intros (? & ? & ? & ?); tauto.
Qed.

(** X3: the rules are checked in the order name, medical history, age,
    blood type, and the first one that fails names the error: each error
    is reported exactly when the earlier rules hold and its own fails. *)
Theorem validateProfile_first_violation (p : PartialMaternalProfile.t) :
  (validateProfile p = Some NAME_ERROR <-> ~ name_rule p)
  /\ (validateProfile p = Some HISTORY_ERROR <-> name_rule p /\ ~ history_rule p)
  /\ (validateProfile p = Some AGE_ERROR <->
        name_rule p /\ history_rule p /\ ~ age_rule p)
  /\ (validateProfile p = Some BLOOD_TYPE_ERROR <->
        name_rule p /\ history_rule p /\ age_rule p /\ ~ blood_type_rule p).
Proof.
  destruct (validateProfile_cases p)
    as [(? & E)|[(? & ? & E)|[(? & ? & ? & E)|[(? & ? & ? & ? & E)|(? & ? & ? & ? & E)]]]];
    rewrite E; repeat split; try done; try tauto; try discriminate;
    intros; exfalso; tauto.
Qed.

Lemma trimStart_length (s : string) :
  (String.length (Js.trimStart s) <= String.length s)%nat.
Proof. induction s as [|c s IH]; simpl; [lia|]. destruct (Js.is_white_space c); simpl; lia. Qed.

Lemma trimEnd_length (s : string) :
  (String.length (Js.trimEnd s) <= String.length s)%nat.
Proof.
  induction s as [|c s IH]; simpl; [lia|].
  destruct (Js.trimEnd s); [destruct (Js.is_white_space c)|]; simpl in *; lia.
Qed.

Lemma trim_length (s : string) : (String.length (Js.trim s) <= String.length s)%nat.
Proof.
  unfold Js.trim. pose proof (trimEnd_length (Js.trimStart s)).
  pose proof (trimStart_length s). lia.
Qed.

(** X4: a candidate that [validateProfile] accepts has a name whose trimmed
    length lies within [2,100]. *)
Theorem accepted_name_trimmed_length (p : PartialMaternalProfile.t) :
  validateProfile p = None ->
  exists n, PartialMaternalProfile.name p = Some n
            /\ (2 <= String.length (Js.trim n) <= 100)%nat.
Proof.
  intros H.
  destruct (validateProfile_cases p)
    as [(? & E)|[(? & ? & E)|[(? & ? & ? & E)|[(? & ? & ? & ? & E)|((n & Hn & H2 & H100) & _)]]]];
    try congruence.
  exists n. split; [done|]. pose proof (trim_length n). lia.
Qed.

Lemma accepted_name_trimmed_length_witness :
  exists n, PartialMaternalProfile.name (sample_profile_body (Some " Amina ") "dr-1") = Some n
            /\ (2 <= String.length (Js.trim n) <= 100)%nat.
Proof.
  exact (accepted_name_trimmed_length (sample_profile_body (Some " Amina ") "dr-1") eq_refl).
Defined.

(** ** The record-metrics handler *)

Lemma post_health_metrics_not_found (env : Env) (body : PartialHealthMetrics.t) (s : State) :
  maternalProfileStorage s !! PartialHealthMetrics.maternalProfileId body = None ->
  post_health_metrics env body s
  = (s, mkResponse 404 (ErrorJson "Maternal profile not found")).
Proof. intros H. unfold post_health_metrics. by rewrite H. Qed.

Lemma post_health_metrics_invalid (env : Env) (body : PartialHealthMetrics.t) (s : State)
    (e : string) :
  is_Some (maternalProfileStorage s !! PartialHealthMetrics.maternalProfileId body) ->
  validateHealthMetrics body = Some e ->
  post_health_metrics env body s = (s, mkResponse 400 (ErrorJson e)).
Proof. intros [p Hp] H. unfold post_health_metrics. by rewrite Hp, H. Qed.

Lemma post_health_metrics_passes_status (env : Env) (body : PartialHealthMetrics.t)
    (s : State) :
  metrics_request_passes body s ->
  status (snd (post_health_metrics env body s)) = 200%Z
  \/ status (snd (post_health_metrics env body s)) = 500%Z.
Proof.
  intros [[p Hp] Hv]. unfold post_health_metrics. rewrite Hp, Hv.
  destruct (serializeMetrics _); auto.
Qed.

(** X5: [POST /health-metrics] answers 404 exactly when the profile the body
    names is not stored, whatever the readings are, and 400 exactly when the
    profile is stored and the readings fail validation; in both cases the
    state is left as it was. *)
Theorem record_metrics_rejections (env : Env) (body : PartialHealthMetrics.t) (s : State) :
  (status (snd (post_health_metrics env body s)) = 404%Z <->
     maternalProfileStorage s !! PartialHealthMetrics.maternalProfileId body = None)
  /\ (status (snd (post_health_metrics env body s)) = 400%Z <->
        is_Some (maternalProfileStorage s !! PartialHealthMetrics.maternalProfileId body)
        /\ validateHealthMetrics body <> None)
  /\ (status (snd (post_health_metrics env body s)) = 404%Z
      \/ status (snd (post_health_metrics env body s)) = 400%Z ->
      fst (post_health_metrics env body s) = s).
Proof.
  destruct (maternalProfileStorage s !! PartialHealthMetrics.maternalProfileId body)
    as [p|] eqn:Hp.
  - destruct (validateHealthMetrics body) as [e|] eqn:Hv.
    + rewrite (post_health_metrics_invalid env body s e) by (rewrite ?Hp; eauto).
      simpl. repeat split; try done; try (by intros [? _]).
    + assert (Hpass : metrics_request_passes body s)
        by (split; [rewrite Hp; eauto | done]).
      destruct (post_health_metrics_passes_status env body s Hpass) as [E|E]; rewrite E.
      all: split; [split; discriminate|].
      all: split; [split; [discriminate | intros [_ ?]; done]|].
      all: intros [?|?]; discriminate.
  - rewrite (post_health_metrics_not_found env body s Hp). simpl.
    repeat split; try done; try (by intros [[? ?] _]).
Qed.

(** X6: an accepted snapshot is stored under the identifier of the body, or
    under the one [uuidv4()] returns when the body has none, and can be read
    back; its flag is the disjunction of the verdict of [assessRisk] and of
    the flag the body carries; and the alert store is written exactly when
    the verdict is HIGH. *)
Theorem record_metrics_stores_snapshot (env : Env) (body : PartialHealthMetrics.t)
    (s : State) :
  metrics_request_passes body s ->
  let m := recorded_metrics env body in
  let s' := fst (post_health_metrics env body s) in
  HealthMetrics.id m = default (uuidv4 env 0%nat) (PartialHealthMetrics.id body)
  /\ metricsStorage s' = <[HealthMetrics.id m := m]> (metricsStorage s)
  /\ metricsStorage s' !! HealthMetrics.id m = Some m
  /\ HealthMetrics.isFlaggedForReview m
     = (assessRisk m || default false (PartialHealthMetrics.isFlaggedForReview body))%bool
  /\ (assessRisk m = false -> alertStorage s' = alertStorage s)
  /\ (assessRisk m = true ->
      exists a, alertStorage s' = <[uuidv4 env 1%nat := a]> (alertStorage s)
                /\ HealthAlert.maternalProfileId a = PartialHealthMetrics.maternalProfileId body
                /\ HealthAlert.providerId a = PartialHealthMetrics.recordedById body).
Proof.
  intros [Hp Hv] m s'. subst m s'.
  rewrite (post_health_metrics_accepted env body s Hp Hv).
  unfold recorded_metrics.
  destruct (assessRisk (new_metrics env body)) eqn:E.
  - rewrite assessRisk_flag_for_review, E. simpl.
    repeat split; try done; try apply lookup_insert_eq. intros _. by eexists.
  - rewrite E. simpl.
    repeat split; try done; try apply lookup_insert_eq.
Qed.

Lemma record_metrics_stores_snapshot_witness :
  metricsStorage state_with_open_alert !! "m-1"
  = Some (recorded_metrics first_env (sample_metrics_body 150 95 100 12 None))
  /\ HealthMetrics.isFlaggedForReview
       (recorded_metrics first_env (sample_metrics_body 150 95 100 12 None)) = true.
Proof.
  assert (H : metrics_request_passes (sample_metrics_body 150 95 100 12 None) sample_state)
    by (split; [by eexists | reflexivity]).
  destruct (record_metrics_stores_snapshot first_env _ _ H) as (_ & _ & Hl & Hf & _).
  split; [exact Hl | exact Hf].
Defined.

(** X7: a 500 answer of [POST /health-metrics] does not undo the writes: when
    an accepted body carries a [recordedAt] beyond the range of [Date], the
    handler answers 500 and the snapshot is stored all the same, with its
    alert when the verdict is HIGH. *)
Theorem record_metrics_failure_keeps_writes (env : Env) (body : PartialHealthMetrics.t)
    (s : State) (t : Z) :
  metrics_request_passes body s ->
  PartialHealthMetrics.recordedAt body = Some t ->
  malformed_instant t ->
  let m := recorded_metrics env body in
  let s' := fst (post_health_metrics env body s) in
  status (snd (post_health_metrics env body s)) = 500%Z
  /\ metricsStorage s' !! HealthMetrics.id m = Some m
  /\ (assessRisk m = true -> is_Some (alertStorage s' !! uuidv4 env 1%nat)).
Proof.
  intros [Hp Hv] Ht Hbad m s'. subst m s'.
  assert (Hm : malformed_instant (HealthMetrics.recordedAt (recorded_metrics env body))).
  { unfold recorded_metrics. destruct (assessRisk _); simpl; by rewrite Ht. }
  split.
  { destruct Hp as [p Hp]. unfold post_health_metrics. rewrite Hp, Hv.
    fold (recorded_metrics env body). by rewrite (serializeMetrics_malformed _ Hm). }
  rewrite (post_health_metrics_accepted env body s Hp Hv).
  split; [simpl; apply lookup_insert_eq|].
  unfold recorded_metrics.
  destruct (assessRisk (new_metrics env body)) eqn:E.
  - intros _. simpl. rewrite lookup_insert_eq. by eexists.
  - rewrite E. discriminate.
Qed.

Lemma record_metrics_failure_keeps_writes_witness :
  status (snd (post_health_metrics first_env undatable_high_body sample_state)) = 500%Z
  /\ is_Some (metricsStorage
                (fst (post_health_metrics first_env undatable_high_body sample_state))
              !! "m-1")
  /\ is_Some (alertStorage
                (fst (post_health_metrics first_env undatable_high_body sample_state))
              !! "a-1").
Proof.
  assert (H : metrics_request_passes undatable_high_body sample_state)
    by (split; [by eexists | reflexivity]).
  assert (Hbad : malformed_instant (10 ^ 25)) by (unfold malformed_instant; vm_compute; reflexivity).
  destruct (record_metrics_failure_keeps_writes first_env undatable_high_body sample_state
              _ H eq_refl Hbad) as (Hs & Hm & Ha).
  split; [exact Hs|]. split; [by eexists | exact (Ha eq_refl)].
Defined.

(** ** The create-profile handler *)

Lemma sanitize_body_dueDate (body : PartialMaternalProfile.t) :
  PartialMaternalProfile.dueDate (sanitize_body body) = PartialMaternalProfile.dueDate body.
Proof. reflexivity. Qed.

Lemma post_maternal_profiles_passes (env : Env) (body : PartialMaternalProfile.t)
    (s : State) (ms : Z) :
  profile_request_passes body s ms ->
  exists serialized,
    serializeProfile (new_profile env (sanitize_body body) ms) = Js.Return serialized
    /\ post_maternal_profiles env body s
       = (insert_profile (new_profile env (sanitize_body body) ms) s,
          mkResponse 200 (ProfileJson serialized)).
Proof.
  intros (Hv & (provider & Hp & Hact) & Hd).
  destruct (serializeProfile_returns (new_profile env (sanitize_body body) ms))
    as (j & Hj & _).
  exists j. split; [exact Hj|].
  unfold post_maternal_profiles.
  rewrite Hv, sanitize_body_provider, Hp, Hact, sanitize_body_dueDate, Hd. simpl.
  by rewrite Hj.
Qed.

Lemma post_maternal_profiles_fails (env : Env) (body : PartialMaternalProfile.t) (s : State) :
  (forall ms, ~ profile_request_passes body s ms) ->
  fst (post_maternal_profiles env body s) = s
  /\ status (snd (post_maternal_profiles env body s)) <> 200%Z.
Proof.
  intros Hno. unfold post_maternal_profiles.
  destruct (validateProfile (sanitize_body body)) as [e|] eqn:Hv; [by split|].
  rewrite sanitize_body_provider.
  destruct (providerStorage s !! PartialMaternalProfile.primaryCareProviderId body)
    as [provider|] eqn:Hp; [|by split].
  destruct (HealthcareProvider.isActive provider) eqn:Hact; simpl; [|by split].
  rewrite ?sanitize_body_dueDate.
  destruct (PartialMaternalProfile.dueDate body) as [ms|] eqn:Hd; simpl; [|by split].
  exfalso. apply (Hno ms). unfold profile_request_passes. eauto 10.
Qed.

Lemma profile_request_passes_dec (body : PartialMaternalProfile.t) (s : State) :
  (exists ms, profile_request_passes body s ms)
  \/ (forall ms, ~ profile_request_passes body s ms).
Proof.
  unfold profile_request_passes.
  destruct (validateProfile (sanitize_body body)); [right; by intros ms (? & _)|].
  destruct (providerStorage s !! PartialMaternalProfile.primaryCareProviderId body)
    as [provider|]; [|right; by intros ms (_ & (? & ? & _) & _)].
  destruct (HealthcareProvider.isActive provider) eqn:Hact;
    [|right; intros ms (_ & (? & [= <-] & ?) & _); congruence].
  destruct (PartialMaternalProfile.dueDate body) as [ms|];
    [left; exists ms; eauto 10 | right; by intros ms (_ & _ & ?)].
Qed.

(** X8: [POST /maternal-profiles] answers 200 exactly when the sanitised body
    passes validation, the provider it names is stored and active, and the
    due date is a valid date; with any other answer (400, 404 or 500) the
    state is exactly as before, so a failed request stores nothing. *)
Theorem create_profile_all_or_nothing (env : Env) (body : PartialMaternalProfile.t)
    (s : State) :
  (status (snd (post_maternal_profiles env body s)) = 200%Z <->
     exists ms, profile_request_passes body s ms)
  /\ (status (snd (post_maternal_profiles env body s)) <> 200%Z ->
      fst (post_maternal_profiles env body s) = s).
Proof.
  destruct (profile_request_passes_dec body s) as [[ms Hpass]|Hno].
  - destruct (post_maternal_profiles_passes env body s ms Hpass) as (j & _ & ->). simpl.
    split; [split; eauto | done].
  - destruct (post_maternal_profiles_fails env body s Hno) as [Hs Hst].
    split; [split; [done | intros [ms ?]; by destruct (Hno ms)] | done].
Qed.

Lemma sanitizeString_no_angle (s : string) : has_no_angle_bracket (sanitizeString s).
Proof.
  unfold has_no_angle_bracket. induction s as [|c s [IHlt IHgt]]; [simpl; tauto|].
  rewrite sanitizeString_cons.
  destruct (Ascii.eqb c "<" || Ascii.eqb c ">")%bool eqn:E; [done|].
  apply orb_false_iff in E as [Elt Egt]. apply Ascii.eqb_neq in Elt, Egt.
  simpl. split; intros [?|?]; congruence || tauto.
Qed.

Lemma sanitize_field_no_angle (f : option string) (v : string) :
  sanitize_field f = Some v -> has_no_angle_bracket v.
Proof.
  unfold sanitize_field. destruct f as [x|]; simpl; [|done].
  destruct (String.eqb_spec x "") as [->|_]; simpl; intros [= <-].
  - unfold has_no_angle_bracket; simpl; tauto.
  - apply sanitizeString_no_angle.
Qed.

Lemma new_profile_valid (env : Env) (body : PartialMaternalProfile.t) (ms : Z) :
  validateProfile (sanitize_body body) = None ->
  stored_profile_valid (new_profile env (sanitize_body body) ms).
Proof.
  intros Hv.
  destruct (validateProfile_cases (sanitize_body body))
    as [(? & E)|[(? & ? & E)|[(? & ? & ? & E)|[(? & ? & ? & ? & E)|(Hn & Hh & Ha & Hb & _)]]]];
    try congruence.
  unfold stored_profile_valid. simpl.
  destruct Hn as (n & Hn & H2 & H100). simpl in Hn.
  split; [exists n; split; [done|]; split; [by eapply sanitize_field_no_angle|done]|].
  split; [intros c Hc; by eapply sanitize_field_no_angle|].
  split; [exact Ha|]. split; [exact Hb|]. split; [|by exists ms].
  unfold history_rule in Hh. simpl in Hh.
  destruct (PartialMaternalProfile.medicalHistory body) as [entries|]; simpl; [by apply Hh|].
  constructor.
Qed.

(** X9: when the request passes, the profile is stored under the identifier
    of the body, or under the one [uuidv4()] returns when the body has none,
    replacing whatever was stored there and nothing else; it can be read
    back, carries the sanitised name, the due date in nanoseconds, and, for
    a body without these keys, risk level LOW and trimester FIRST; and the
    other four stores are untouched. *)
Theorem create_profile_stores_profile (env : Env) (body : PartialMaternalProfile.t)
    (s : State) (ms : Z) :
  profile_request_passes body s ms ->
  let s' := fst (post_maternal_profiles env body s) in
  let key := default (uuidv4 env 0%nat) (PartialMaternalProfile.id body) in
  exists p,
    maternalProfileStorage s' = <[key := p]> (maternalProfileStorage s)
    /\ maternalProfileStorage s' !! key = Some p
    /\ MaternalProfile.id p = key
    /\ MaternalProfile.name p = sanitize_field (PartialMaternalProfile.name body)
    /\ MaternalProfile.dueDate p = (ms * 1000000)%Z
    /\ MaternalProfile.riskLevel p = default LOW (PartialMaternalProfile.riskLevel body)
    /\ MaternalProfile.currentTrimester p
       = default FIRST (PartialMaternalProfile.currentTrimester body)
    /\ stored_profile_valid p
    /\ providerStorage s' = providerStorage s
    /\ metricsStorage s' = metricsStorage s
    /\ visitStorage s' = visitStorage s
    /\ alertStorage s' = alertStorage s.
Proof.
  intros Hpass s' key. subst s' key.
  destruct (post_maternal_profiles_passes env body s ms Hpass) as (j & _ & ->).
  destruct Hpass as (Hv & _ & _).
  exists (new_profile env (sanitize_body body) ms). simpl.
  split; [done|]. split; [apply lookup_insert_eq|].
  repeat (split; [done|]). split; [by apply new_profile_valid|]. done.
Qed.

Lemma create_profile_stores_profile_witness :
  exists p, maternalProfileStorage after_profile_created !! "p-2" = Some p
            /\ MaternalProfile.name p = Some "Amina"
            /\ MaternalProfile.dueDate p = 1800000000000000000%Z.
Proof.
  assert (H : profile_request_passes valid_profile_body sample_state 1800000000000).
  { split; [reflexivity|]. split; [|reflexivity].
    exists (sample_provider "dr-1" true). split; reflexivity. }
  destruct (create_profile_stores_profile profile_env valid_profile_body sample_state _ H)
    as (p & _ & Hl & _ & Hn & Hd & _).
  exists p. split; [exact Hl|]. split; [exact Hn | exact Hd].
Defined.

(** ** What every request does to the state *)

Lemma handle_cases (env : Env) (req : Request) (s : State) :
  fst (handle env req s) = s
  \/ (exists body ms,
        req = PostMaternalProfiles body
        /\ profile_request_passes body s ms
        /\ fst (handle env req s)
           = insert_profile (new_profile env (sanitize_body body) ms) s)
  \/ (exists body,
        req = PostHealthMetrics body
        /\ metrics_request_passes body s
        /\ fst (handle env req s)
           = insert_metrics (recorded_metrics env body)
               (if assessRisk (new_metrics env body)
                then createHighRiskAlert (uuidv4 env 1%nat) (ic_time env)
                       (recorded_metrics env body) s
                else s)).
Proof.
  destruct req as [body|body|page limit]; simpl.
  - destruct (profile_request_passes_dec body s) as [[ms Hpass]|Hno].
    + right; left. exists body, ms.
      destruct (post_maternal_profiles_passes env body s ms Hpass) as (j & _ & ->). done.
    + left. by destruct (post_maternal_profiles_fails env body s Hno).
  - destruct (maternalProfileStorage s !! PartialHealthMetrics.maternalProfileId body)
      as [p|] eqn:Hp; [|left; by rewrite post_health_metrics_rejected; auto].
    destruct (validateHealthMetrics body) as [e|] eqn:Hv;
      [left; rewrite post_health_metrics_rejected; [done | right; by rewrite Hv]|].
    right; right. exists body.
    assert (Hpass : metrics_request_passes body s) by (split; [rewrite Hp; eauto | done]).
    split; [done|]. split; [done|].
    destruct Hpass as [Hp' Hv']. by apply post_health_metrics_accepted.
  - left. apply get_maternal_profiles_state.
Qed.

Lemma reachable_invariant (P : State -> Prop) (s0 s : State) :
  (forall env req s, P s -> P (fst (handle env req s))) ->
  P s0 -> reachable s0 s -> P s.
Proof. intros Hstep H0 Hr. induction Hr; eauto. Qed.

Lemma clinic_run_reachable : reachable clinic_state clinic_after_visit.
Proof. unfold clinic_after_visit. do 2 apply reachable_handle. apply reachable_start. Defined.

(** X10: the provider store and the visit store are never written: in every
    state reached from [s0] they are those of [s0]. *)
Theorem providers_and_visits_never_written (s0 s : State) :
  reachable s0 s ->
  providerStorage s = providerStorage s0 /\ visitStorage s = visitStorage s0.
Proof.
  intros Hr. induction Hr as [|s env req _ [IHp IHv]]; [done|].
  destruct (handle_cases env req s)
    as [->|[(body & ms & _ & _ & ->)|(body & _ & _ & ->)]]; simpl; try done.
  by destruct (assessRisk _).
Qed.

Lemma providers_and_visits_never_written_witness :
  providerStorage clinic_after_visit = providerStorage clinic_state
  /\ visitStorage clinic_after_visit = visitStorage clinic_state.
Proof. exact (providers_and_visits_never_written _ _ clinic_run_reachable). Defined.

(** X11: no route registers a provider, so a canister that starts with
    empty stores stays empty: every state reached from the empty state is
    the empty state, and no profile, snapshot or alert is ever stored. *)
Theorem empty_canister_stays_empty (s : State) :
  reachable empty_state s -> s = empty_state.
Proof.
  intros Hr.
  apply (reachable_invariant (fun s => s = empty_state) empty_state s); [|done|done].
  intros env req s' ->.
  destruct (handle_cases env req empty_state)
    as [->|[(body & ms & _ & (_ & (pr & Hpr & _) & _) & _)|(body & _ & [[p Hp] _] & _)]];
    [done| |]; simpl in *; by rewrite lookup_empty in *.
Qed.

Lemma empty_canister_stays_empty_witness :
  fst (handle profile_env (PostMaternalProfiles valid_profile_body) empty_state)
  = empty_state.
Proof.
  exact (empty_canister_stays_empty _
           (reachable_handle _ _ profile_env (PostMaternalProfiles valid_profile_body)
              (reachable_start _))).
Defined.

(** X12: nothing is ever deleted: the keys of the profile, metrics and alert
    stores of [s0] are still keys in every state reached from [s0]. *)
Theorem stores_only_grow (s0 s : State) :
  reachable s0 s ->
  dom (maternalProfileStorage s0) ⊆ dom (maternalProfileStorage s)
  /\ dom (metricsStorage s0) ⊆ dom (metricsStorage s)
  /\ dom (alertStorage s0) ⊆ dom (alertStorage s).
Proof.
  intros Hr. induction Hr as [|s env req _ (IHp & IHm & IHa)]; [done|].
  destruct (handle_cases env req s)
    as [->|[(body & ms & _ & _ & ->)|(body & _ & _ & ->)]]; simpl; [done| |].
  - split; [|done]. rewrite dom_insert. set_solver.
  - destruct (assessRisk _); simpl; rewrite ?dom_insert; set_solver.
Qed.

Lemma stores_only_grow_witness :
  dom (maternalProfileStorage sample_state) ⊆ dom (maternalProfileStorage after_two_high_recordings)
  /\ dom (metricsStorage sample_state) ⊆ dom (metricsStorage after_two_high_recordings)
  /\ dom (alertStorage sample_state) ⊆ dom (alertStorage after_two_high_recordings).
Proof. exact (stores_only_grow _ _ sample_run_reachable). Defined.

(** ** Invariants of the stores *)

(** X13: every profile the canister stores has passed validation after
    sanitisation: in every state reached from a state whose profiles are
    valid (no profiles at all, for one), each stored profile has a name
    without ['<'] or ['>'] of trimmed length at least 2 and length at most
    100, an emergency contact without ['<'] or ['>'], an age within
    [16,60], one of the eight blood types, medical-history entries of at
    most 1000 characters, and a due date that is a whole number of
    milliseconds. *)
Theorem stored_profiles_valid (s0 s : State) :
  map_Forall (fun _ p => stored_profile_valid p) (maternalProfileStorage s0) ->
  reachable s0 s ->
  map_Forall (fun _ p => stored_profile_valid p) (maternalProfileStorage s).
Proof.
  intros H0 Hr.
  apply (reachable_invariant
           (fun s => map_Forall (fun _ p => stored_profile_valid p) (maternalProfileStorage s))
           s0 s); [|done|done].
  clear. intros env req s H.
  destruct (handle_cases env req s)
    as [->|[(body & ms & _ & (Hv & _) & ->)|(body & _ & _ & ->)]]; simpl; [done| |].
  - apply map_Forall_insert_2; [by apply new_profile_valid | done].
  - by destruct (assessRisk _).
Qed.

Lemma stored_profiles_valid_witness :
  map_Forall (fun _ p => stored_profile_valid p) (maternalProfileStorage clinic_after_visit).
Proof.
  exact (stored_profiles_valid clinic_state clinic_after_visit
           (map_Forall_empty _) clinic_run_reachable).
Defined.

(** X14: every entry is filed under its own [id]: in every state reached
    from a state where this holds, the key of each stored profile, snapshot
    and alert is the [id] field of the entry, also when the body supplies
    the [id]. *)
Theorem entries_keyed_by_id (s0 s : State) :
  keyed_by_id s0 -> reachable s0 s -> keyed_by_id s.
Proof.
  intros H0 Hr. apply (reachable_invariant keyed_by_id s0 s); [|done|done].
  clear. intros env req s (Hp & Hm & Ha).
  destruct (handle_cases env req s)
    as [->|[(body & ms & _ & _ & ->)|(body & _ & _ & ->)]]; [done| |].
  - split; [|by split]. simpl. by apply map_Forall_insert_2.
  - unfold keyed_by_id. destruct (assessRisk _); simpl.
    + split; [done|]. split; by apply map_Forall_insert_2.
    + split; [done|]. split; [by apply map_Forall_insert_2 | done].
Qed.

Lemma entries_keyed_by_id_witness : keyed_by_id clinic_after_visit.
Proof.
  apply (entries_keyed_by_id clinic_state clinic_after_visit); [|exact clinic_run_reachable].
  repeat split; apply map_Forall_empty.
Defined.

Lemma lookup_insert_is_Some_mono {A} (m : gmap string A) (k k' : string) (x : A) :
  is_Some (m !! k') -> is_Some (<[k := x]> m !! k').
Proof. intros H. rewrite lookup_insert_is_Some. destruct (decide (k = k')); auto. Qed.

(** X15: snapshots and alerts always belong to a stored profile: in every
    state reached from a state where each snapshot and each alert names a
    stored profile, this still holds. *)
Theorem snapshots_and_alerts_have_profiles (s0 s : State) :
  metrics_have_profiles s0 /\ alerts_have_profiles s0 ->
  reachable s0 s ->
  metrics_have_profiles s /\ alerts_have_profiles s.
Proof.
  intros H0 Hr.
  apply (reachable_invariant (fun s => metrics_have_profiles s /\ alerts_have_profiles s)
           s0 s); [|done|done].
  clear. intros env req s [Hm Ha].
  destruct (handle_cases env req s)
    as [->|[(body & ms & _ & _ & ->)|(body & _ & [Hp _] & ->)]]; [done| |].
  - unfold metrics_have_profiles, alerts_have_profiles. simpl.
    split; (eapply map_Forall_impl; [eassumption|]); simpl; intros _ x Hx;
      by apply lookup_insert_is_Some_mono.
  - assert (Hpid : HealthMetrics.maternalProfileId (recorded_metrics env body)
                   = PartialHealthMetrics.maternalProfileId body).
    { unfold recorded_metrics. by destruct (assessRisk _). }
    unfold metrics_have_profiles, alerts_have_profiles.
    destruct (assessRisk _); simpl.
    + split; (apply map_Forall_insert_2; [|done]); simpl; by rewrite Hpid.
    + split; [|done]. apply map_Forall_insert_2; [|done]. by rewrite Hpid.
Qed.

Lemma snapshots_and_alerts_have_profiles_witness :
  metrics_have_profiles clinic_after_visit /\ alerts_have_profiles clinic_after_visit.
Proof.
  apply (snapshots_and_alerts_have_profiles clinic_state clinic_after_visit);
    [|exact clinic_run_reachable].
  split; apply map_Forall_empty.
Defined.

(** X16: a HIGH verdict is never stored unflagged: in every state reached
    from a state where each snapshot that [assessRisk] classifies HIGH is
    flagged (an empty metrics store, for one), this still holds, whatever
    the bodies carry. *)
Theorem high_snapshots_stay_flagged (s0 s : State) :
  high_snapshots_flagged s0 -> reachable s0 s -> high_snapshots_flagged s.
Proof.
  intros H0 Hr. apply (reachable_invariant high_snapshots_flagged s0 s); [|done|done].
  clear. intros env req s H.
  destruct (handle_cases env req s)
    as [->|[(body & ms & _ & _ & ->)|(body & _ & _ & ->)]]; [done|done|].
  unfold high_snapshots_flagged.
  assert (Hnew : assessRisk (recorded_metrics env body) = true ->
                 HealthMetrics.isFlaggedForReview (recorded_metrics env body) = true).
  { unfold recorded_metrics. destruct (assessRisk (new_metrics env body)) eqn:E; [done|].
    rewrite E. discriminate. }
  destruct (assessRisk (new_metrics env body)); simpl; by apply map_Forall_insert_2.
Qed.

Lemma high_snapshots_stay_flagged_witness : high_snapshots_flagged clinic_after_visit.
Proof.
  exact (high_snapshots_stay_flagged clinic_state clinic_after_visit
           (map_Forall_empty _) clinic_run_reachable).
Defined.

(** ** Listing profiles *)





Example second_page_of_fifteen : page_size 15 2 10 = 5%Z.
Proof. reflexivity. Qed.

Example listing_sample_state :
  exists j, snd (get_maternal_profiles None None sample_state)
            = mkResponse 200 (PageJson [j] 1 10 1)
            /\ SerializedProfile.spread j = sample_profile.
Proof. eexists. split; [vm_compute; reflexivity | reflexivity]. Qed.

(** ** Instants at the boundary *)

(** X18: an instant is rendered by its whole milliseconds: a time value [ms]
    within the range of [Date] stored as [ms * 1000000] nanoseconds is
    rendered back as [ms], and for a time value that is not negative up to
    999999 further nanoseconds are dropped; rendering fails exactly for the
    instants of magnitude at least 8640000000000001000000 nanoseconds. *)
Theorem render_instant_whole_milliseconds (ms r t : Z) :
  ((Z.abs ms <= Js.MAX_TIME_VALUE)%Z ->
   render_instant (ms * NANOS_PER_MILLISECOND) = Js.Return (Js.ISO ms))
  /\ ((0 <= ms <= Js.MAX_TIME_VALUE)%Z -> (0 <= r < NANOS_PER_MILLISECOND)%Z ->
      render_instant (ms * NANOS_PER_MILLISECOND + r) = Js.Return (Js.ISO ms))
  /\ (malformed_instant t <-> (8640000000000001000000 <= Z.abs t)%Z).
Proof.
  unfold render_instant, Js.toISOString, malformed_instant, NANOS_PER_MILLISECOND,
    Js.MAX_TIME_VALUE.
  split; [|split].
  - intros H. rewrite Z.quot_mul by lia.
    destruct (Z.leb_spec (Z.abs ms) 8640000000000000); [done | lia].
  - intros Hms Hr.
    rewrite Z.quot_div_nonneg by lia.
    replace ((ms * 1000000 + r) / 1000000)%Z with ms
      by (apply Z.div_unique with r; lia).
    destruct (Z.leb_spec (Z.abs ms) 8640000000000000); [done | lia].
  - rewrite <- (Z.quot_abs t 1000000) by lia. change (Z.abs 1000000) with 1000000%Z.
    rewrite Z.quot_div_nonneg by lia.
    pose proof (Z.div_mod (Z.abs t) 1000000 ltac:(lia)) as Hdm.
    pose proof (Z.mod_pos_bound (Z.abs t) 1000000 ltac:(lia)) as Hb.
    lia.
Qed.

Lemma render_optional_instant_returns (t : option Z) (r : Js.rendered) :
  render_optional_instant t = Js.Return r ->
  (t = None \/ t = Some 0%Z -> r = Js.Null)
  /\ (forall v, t = Some v -> v <> 0%Z -> r = Js.ISO (Z.quot v NANOS_PER_MILLISECOND)).
Proof.
  unfold render_optional_instant, Js.truthy_bigint.
  destruct t as [v|]; [|intros [= <-]; split; [done | by intros v [=]]].
  destruct (Z.eqb_spec v 0) as [->|Hne]; simpl.
  - intros [= <-]. split; [done|]. by intros v [= <-].
  - intros Hr. split; [intros [?|[= ?]]; done|]. intros v' [= <-] _.
    destruct (render_instant_cases v) as [[_ E]|[_ E]]; congruence.
Qed.

(** X19: when a serializer returns, the object it returns carries the entity
    unchanged and each instant as its whole milliseconds; [serializeMetrics]
    returns exactly when [recordedAt] is within the range of [Date]; and
    [serializeVisit] and [serializeAlert] render an optional instant that is
    missing or equal to [0n] as [null]. *)
Theorem serializers_on_success :
  (forall (m : HealthMetrics.t) (j : SerializedMetrics.t),
      serializeMetrics m = Js.Return j <->
        ~ malformed_instant (HealthMetrics.recordedAt m)
        /\ j = SerializedMetrics.mk m
                 (Js.ISO (Z.quot (HealthMetrics.recordedAt m) NANOS_PER_MILLISECOND)))
  /\ (forall (v : PrenatalVisit.t) (j : SerializedVisit.t),
        serializeVisit v = Js.Return j ->
        SerializedVisit.spread j = v
        /\ SerializedVisit.scheduledDate j
           = Js.ISO (Z.quot (PrenatalVisit.scheduledDate v) NANOS_PER_MILLISECOND)
        /\ (PrenatalVisit.nextVisitDate v = None \/ PrenatalVisit.nextVisitDate v = Some 0%Z ->
            SerializedVisit.nextVisitDate j = Js.Null)
        /\ (forall t, PrenatalVisit.nextVisitDate v = Some t -> t <> 0%Z ->
              SerializedVisit.nextVisitDate j = Js.ISO (Z.quot t NANOS_PER_MILLISECOND)))
  /\ (forall (a : HealthAlert.t) (j : SerializedAlert.t),
        serializeAlert a = Js.Return j ->
        SerializedAlert.spread j = a
        /\ SerializedAlert.createdAt j
           = Js.ISO (Z.quot (HealthAlert.createdAt a) NANOS_PER_MILLISECOND)
        /\ (HealthAlert.resolvedAt a = None \/ HealthAlert.resolvedAt a = Some 0%Z ->
            SerializedAlert.resolvedAt j = Js.Null)
        /\ (forall t, HealthAlert.resolvedAt a = Some t -> t <> 0%Z ->
              SerializedAlert.resolvedAt j = Js.ISO (Z.quot t NANOS_PER_MILLISECOND))).
Proof.
  split; [|split].
  - intros m j. unfold serializeMetrics.
    destruct (render_instant_cases (HealthMetrics.recordedAt m)) as [[Hbad ->]|[Hok ->]]; simpl.
    + split; [done | tauto].
    + split; [intros [= <-]; done | intros [_ ->]; done].
  - intros v j. unfold serializeVisit.
    destruct (render_instant_cases (PrenatalVisit.scheduledDate v)) as [[_ ->]|[_ ->]];
      simpl; [done|].
    destruct (render_optional_instant (PrenatalVisit.nextVisitDate v)) as [r|e] eqn:E;
      simpl; [|done].
    intros [= <-]. simpl. destruct (render_optional_instant_returns _ _ E). done.
  - intros a j. unfold serializeAlert.
    destruct (render_instant_cases (HealthAlert.createdAt a)) as [[_ ->]|[_ ->]];
      simpl; [done|].
    destruct (render_optional_instant (HealthAlert.resolvedAt a)) as [r|e] eqn:E;
      simpl; [|done].
    intros [= <-]. simpl. destruct (render_optional_instant_returns _ _ E). done.
Qed.




(** ** Sanitisation, continued *)

Lemma sanitizeString_fixed_iff (s : string) :
  sanitizeString s = s <-> has_no_angle_bracket s.
Proof.
  unfold has_no_angle_bracket. induction s as [|c s IH]; [simpl; tauto|].
  rewrite sanitizeString_cons.
  destruct (Ascii.eqb c "<" || Ascii.eqb c ">")%bool eqn:E.
  - split.
    + intros H. exfalso.
      assert (Hlen : (String.length (sanitizeString s) <= String.length s)%nat).
      { clear. induction s as [|c s IH]; [done|]. rewrite sanitizeString_cons.
        destruct (_ || _)%bool; simpl; lia. }
      rewrite H in Hlen. simpl in Hlen. lia.
    + intros [Hlt Hgt]. exfalso.
      apply orb_true_iff in E as [E|E]; apply Ascii.eqb_eq in E; subst c; simpl in *; tauto.
  - apply orb_false_iff in E as [Elt Egt]. apply Ascii.eqb_neq in Elt, Egt. simpl.
    split.
    + intros [= H]. apply IH in H as [? ?]. split; intros [?|?]; congruence || tauto.
    + intros [Hlt Hgt]. f_equal. apply IH. tauto.
Qed.

(** X21: [sanitizeString] works character by character: the result of a
    concatenation is the concatenation of the results, the result is never
    longer than the input, and it is the input itself exactly when the
    input holds neither ['<'] nor ['>']. *)
Theorem sanitizeString_filters (a b : string) :
  sanitizeString (a ++ b) = sanitizeString a ++ sanitizeString b
  /\ (String.length (sanitizeString a) <= String.length a)%nat
  /\ (sanitizeString a = a <-> has_no_angle_bracket a).
Proof.
  split; [|split].
  - induction a as [|c a IH]; [done|]. simpl.
    destruct (Ascii.eqb c "<" || Ascii.eqb c ">")%bool; simpl; by rewrite IH.
  - induction a as [|c a IH]; [done|]. rewrite sanitizeString_cons.
    destruct (_ || _)%bool; simpl; lia.
  - apply sanitizeString_fixed_iff.
Qed.

(** ** The classifier is monotone *)

(** X22: more alarming readings never lower the verdict: when [assessRisk]
    answers HIGH for a snapshot, it answers HIGH for every snapshot whose
    pressure and sugar readings are no lower and whose haemoglobin reading
    is no higher. *)
Theorem assessRisk_monotone (m m' : HealthMetrics.t) :
  at_least_as_alarming m m' -> assessRisk m = true -> assessRisk m' = true.
Proof.
  intros (Hs & Hd & Hg & Hh) H.
  apply assessRisk_true_iff in H. apply assessRisk_true_iff.
  destruct H as [(v & Hv & Hle)|[(v & Hv & Hle)|[(v & Hv & Hle)|(v & Hv & Hle)]]].
  - destruct (Hs v Hv) as (w & Hw & Hvw). left. exists w. split; [done|].
    by apply Qle_trans with v.
  - destruct (Hd v Hv) as (w & Hw & Hvw). right; left. exists w. split; [done|].
    by apply Qle_trans with v.
  - destruct (Hg v Hv) as (w & Hw & Hvw). right; right; left. exists w. split; [done|].
    by apply Qlt_le_trans with v.
  - destruct (Hh v Hv) as (w & Hw & Hvw). right; right; right. exists w. split; [done|].
    by apply Qle_lt_trans with v.
Qed.

Lemma assessRisk_monotone_witness :
  assessRisk (sample_metrics 160 95 100 12) = true.
Proof.
  apply (assessRisk_monotone (sample_metrics 150 95 100 12)); [|reflexivity].
  repeat split; intros v [= <-]; eexists; (split; [reflexivity|]); by apply Qle_bool_iff.
Defined.

(** ** Readings are optional *)

(** X23: no reading is required: a body for a stored profile that carries
    none of the systolic, diastolic, blood-sugar and haemoglobin readings
    passes validation, is classified LOW and is stored, flagged only if the
    body says so, and no alert is written. *)
Theorem snapshot_without_readings_accepted (env : Env) (body : PartialHealthMetrics.t)
    (s : State) :
  is_Some (maternalProfileStorage s !! PartialHealthMetrics.maternalProfileId body) ->
  PartialHealthMetrics.bloodPressureSystolic body = None ->
  PartialHealthMetrics.bloodPressureDiastolic body = None ->
  PartialHealthMetrics.bloodSugar body = None ->
  PartialHealthMetrics.hemoglobinLevels body = None ->
  let s' := fst (post_health_metrics env body s) in
  validateHealthMetrics body = None
  /\ assessRisk (new_metrics env body) = false
  /\ metricsStorage s' !! default (uuidv4 env 0%nat) (PartialHealthMetrics.id body)
     = Some (new_metrics env body)
  /\ HealthMetrics.isFlaggedForReview (new_metrics env body)
     = default false (PartialHealthMetrics.isFlaggedForReview body)
  /\ alertStorage s' = alertStorage s.
Proof.
  intros Hp Hs Hd Hg Hh s'. subst s'.
  assert (Hv : validateHealthMetrics body = None)
    by (unfold validateHealthMetrics; by rewrite Hs, Hd, Hg).
  assert (Hlow : assessRisk (new_metrics env body) = false)
    by (unfold assessRisk; simpl; by rewrite Hs, Hd, Hg, Hh).
  rewrite (post_health_metrics_accepted env body s Hp Hv).
  unfold recorded_metrics. rewrite Hlow. simpl.
  repeat split; try done. apply lookup_insert_eq.
Qed.

Lemma snapshot_without_readings_accepted_witness :
  metricsStorage (fst (post_health_metrics first_env body_without_readings sample_state))
    !! "m-1" = Some (new_metrics first_env body_without_readings)
  /\ alertStorage (fst (post_health_metrics first_env body_without_readings sample_state))
     = alertStorage sample_state.
Proof.
  destruct (snapshot_without_readings_accepted first_env body_without_readings sample_state)
    as (_ & _ & Hm & _ & Ha); try reflexivity.
  - by eexists.
  - split; [exact Hm | exact Ha].
Defined.

(** ** Sanitisation comes before validation *)

Lemma sanitize_field_Some (n : string) : sanitize_field (Some n) = Some (sanitizeString n).
Proof. unfold sanitize_field. simpl. by destruct (String.eqb_spec n "") as [->|_]. Qed.

Lemma name_rule_sanitize_body (body : PartialMaternalProfile.t) :
  ~ name_rule (sanitize_body body) <->
    match PartialMaternalProfile.name body with
    | None => True
    | Some n => (String.length (Js.trim (sanitizeString n)) < 2)%nat
                \/ (100 < String.length (sanitizeString n))%nat
    end.
Proof.
  unfold name_rule. simpl.
  destruct (PartialMaternalProfile.name body) as [n|].
  - rewrite sanitize_field_Some. split.
    + intros H.
      destruct (Nat.ltb_spec (String.length (Js.trim (sanitizeString n))) 2); [by left|].
      destruct (Nat.ltb_spec 100 (String.length (sanitizeString n))); [by right|].
      exfalso. apply H. eexists. split; [reflexivity|]. lia.
    + intros H (n' & [= <-] & ? & ?). lia.
  - split; [done|]. intros _ (n & Hn & _). discriminate Hn.
Qed.

(** X24: the name rule is applied to the sanitised name: [POST
    /maternal-profiles] answers 400 with the name error exactly when the
    body has no name, or the name with its ['<'] and ['>'] removed has
    trimmed length below 2 or length above 100; the state is then
    unchanged. *)
Theorem create_profile_checks_sanitised_name (env : Env) (body : PartialMaternalProfile.t)
    (s : State) :
  (snd (post_maternal_profiles env body s) = mkResponse 400 (ErrorJson NAME_ERROR) <->
     match PartialMaternalProfile.name body with
     | None => True
     | Some n => (String.length (Js.trim (sanitizeString n)) < 2)%nat
                 \/ (100 < String.length (sanitizeString n))%nat
     end)
  /\ (snd (post_maternal_profiles env body s) = mkResponse 400 (ErrorJson NAME_ERROR) ->
      fst (post_maternal_profiles env body s) = s).
Proof.
  rewrite <- name_rule_sanitize_body. unfold post_maternal_profiles.
  destruct (validateProfile_cases (sanitize_body body))
    as [(N & E)|[(N & ? & E)|[(N & ? & ? & E)|[(N & ? & ? & ? & E)|(N & ? & ? & ? & E)]]]];
    rewrite E.
  - by split.
  - split; [split; [discriminate | tauto] | done].
  - split; [split; [discriminate | tauto] | done].
  - split; [split; [discriminate | tauto] | done].
  - destruct (providerStorage s !! _) as [provider|];
      [destruct (HealthcareProvider.isActive provider); simpl;
       [destruct (BigInt_of_time_value _); [destruct (serializeProfile _)|]|]|];
      (split; [split; [discriminate | tauto] | discriminate]).
Qed.

Example brackets_only_name_rejected :
  post_maternal_profiles profile_env (sample_profile_body (Some "<<A>>") "dr-1") sample_state
  = (sample_state, mkResponse 400 (ErrorJson NAME_ERROR)).
Proof. vm_compute. reflexivity. Qed.
